(** * TI DS250DFx10 retimer driver: register access and channel configuration

    A shallow embedding of [drivers/phy/ti/phy-ti-ds250dfx10.c].  The driver
    talks to the chip through SMBus byte transactions and to the kernel through
    the devm/phy API.  Every such call is a call into code outside the driver:
    its result is drawn from an oracle ([Kernel]) and the call is appended,
    with its result, to a trace.  Driver functions are state transformers over
    a [world] that holds the oracle, the trace, the [struct phy] objects and
    the driver's private data. *)

From Stdlib Require Import ZArith Lia.
From stdpp Require Import base option list strings.

Local Open Scope Z_scope.

(** ** Machine integers *)

(** Conversion to [uint8_t]. *)
Definition uint8 (z : Z) : Z := z mod 256.

(** Modelled from the spec: [EIO] comes from the kernel's errno headers, which
    are not part of the driver's file; it is the spec's TransportError. *)
Definition EIO : Z := 5.

(** Modelled from the spec: [ENOMEM], from the same headers; the spec's
    AllocationFailure. *)
Definition ENOMEM : Z := 12.

(** Modelled from the spec: [ENODEV], from the same headers; the spec's
    NotFound. *)
Definition ENODEV : Z := 19.

(** Modelled from the spec: [EINVAL], from the same headers; the spec's
    UnsupportedTopology. *)
Definition EINVAL : Z := 22.

(** Modelled from the spec: [EOPNOTSUPP], from the same headers; the spec's
    UnsupportedOperation. *)
Definition EOPNOTSUPP : Z := 95.

(** Modelled from the spec: [GENMASK(h, l)] is a macro of linux/bits.h, the
    bits [l..h] set; the spec calls [GENMASK(3, 0)] the low nibble and
    [GENMASK(7, 4)] the high nibble. *)
Definition GENMASK (h l : Z) : Z := Z.shiftl (Z.ones (h - l + 1)) l.

Definition DS250DF410_REG_CHAN_CONFIG_ID : Z := 0xEF.
Definition DS250DF410_MASK_CHAN_CONFIG_ID : Z := GENMASK 3 0.
Definition DS250DF410_REG_VERSION : Z := 0xF0.
Definition DS250DF410_REG_DEVICE_ID : Z := 0xF1.
Definition DS250DF410_REG_CHAN_VERSION : Z := 0xF3.
Definition DS250DF410_MASK_CHAN_VERSION : Z := GENMASK 7 4.
Definition DS250DF410_MASK_SHARE_VERSION : Z := GENMASK 3 0.

(** ** Data *)

(** A [struct phy *] that is not an error pointer: the position of the object
    among all the phy objects ever created. *)
Abbreviation phy_handle := nat (only parsing).

(** What the kernel hands back where C has a pointer or an [ERR_PTR]. *)
Inductive ptr_or_err (A : Type) : Type :=
| PTR (a : A)
| ERR_PTR (errno : Z).
Arguments PTR {A} a.
Arguments ERR_PTR {A} errno.

(** [struct ds250dfx10_phy_priv]; [client] is the one i2c client of the
    world. *)
Record ds250dfx10_phy_priv : Type := { channel : Z }.

(** [struct ds250dfx10_priv]; a [None] slot is a NULL pointer. *)
Record ds250dfx10_priv : Type := {
  phy : list (option phy_handle);
  provider : option (ptr_or_err unit)
}.

(** The object [devm_kzalloc] returns for [sizeof(struct ds250dfx10_priv)]. *)
Definition priv_zeroed : ds250dfx10_priv :=
  {| phy := replicate 8 None; provider := None |}.

(** A [struct phy] as far as the driver sees it. *)
Record phy_obj : Type := {
  drvdata : option ds250dfx10_phy_priv;
  destroyed : bool
}.

Inductive log_level : Type := KERN_ERR | KERN_WARNING | KERN_INFO.

(** One call out of the driver, with what it returned. *)
Inductive event : Type :=
| SmbusRead (address res : Z)
| SmbusWrite (address value res : Z)
| DevLog (level : log_level) (fmt : string) (args : list Z)
| PhyCreate (res : ptr_or_err phy_handle)
| PhyDestroy (p : phy_handle)
| ProviderRegister (res : ptr_or_err unit)
| WarnOn.

(** ** The world outside the driver *)

(** Modelled from the spec: the kernel functions the driver calls are declared
    in linux/i2c.h and linux/phy/phy.h, not in the driver's file.  The bus is
    the spec's transport (a read or a write of one byte that may fail); the
    allocators may fail (AllocationFailure).  A negative result is an errno. *)
Class Kernel (K : Type) : Type := {
  smbus_read_byte_data : Z -> K -> Z * K;
  smbus_write_byte_data : Z -> Z -> K -> Z * K;
  kzalloc_succeeds : K -> bool * K;
  phy_create_result : K -> Z * K;
  provider_register_result : K -> Z * K
}.

(** Modelled from the spec: the enumerators the driver compares against are
    declared in linux/phy/phy.h and linux/phy.h; the spec names them Ethernet,
    10GBASE-R and 25GBASE-R.  The two submodes label two cases of one switch,
    so they differ. *)
Class PhyABI : Type := {
  PHY_MODE_ETHERNET : Z;
  PHY_INTERFACE_MODE_10GBASER : Z;
  PHY_INTERFACE_MODE_25GBASER : Z;
  submodes_differ : PHY_INTERFACE_MODE_10GBASER <> PHY_INTERFACE_MODE_25GBASER
}.

(** ** State passing *)

Definition state (W A : Type) : Type := W -> A * W.

Definition pure {W A : Type} (a : A) : state W A := fun w => (a, w).

Definition bind {W A B : Type} (m : state W A) (f : A -> state W B) : state W B :=
  fun w => let (a, w') := m w in f a w'.

Declare Scope state_scope.
Delimit Scope state_scope with state.
Notation "x <- m ;; k" := (bind m (fun x => k))
  (at level 100, m at next level, right associativity) : state_scope.
Notation "m ;;; k" := (bind m (fun _ => k))
  (at level 100, right associativity) : state_scope.
Local Open Scope state_scope.

Section Driver.
Context {K : Type} `{!Kernel K} `{!PhyABI}.

Record world : Type := {
  kernel : K;
  trace : list event;
  phy_objs : list phy_obj;
  clientdata : option ds250dfx10_priv
}.

Definition M : Type -> Type := state world.

Definition emit (e : event) : M unit := fun w =>
  (tt, {| kernel := kernel w; trace := trace w ++ [e];
          phy_objs := phy_objs w; clientdata := clientdata w |}).

(** Draw the result of an external call from the oracle. *)
Definition ask {A : Type} (f : K -> A * K) : M A := fun w =>
  let (a, k') := f (kernel w) in
  (a, {| kernel := k'; trace := trace w;
         phy_objs := phy_objs w; clientdata := clientdata w |}).

Definition dev_err (fmt : string) (args : list Z) : M unit :=
  emit (DevLog KERN_ERR fmt args).
Definition dev_warn (fmt : string) (args : list Z) : M unit :=
  emit (DevLog KERN_WARNING fmt args).
Definition dev_info (fmt : string) (args : list Z) : M unit :=
  emit (DevLog KERN_INFO fmt args).

Definition i2c_smbus_read_byte_data (address : Z) : M Z :=
  res <- ask (smbus_read_byte_data address) ;;
  emit (SmbusRead address res) ;;;
  pure res.

Definition i2c_smbus_write_byte_data (address value : Z) : M Z :=
  res <- ask (smbus_write_byte_data address value) ;;
  emit (SmbusWrite address value res) ;;;
  pure res.

(** ** Register access *)

(** [inl] is the returned error, [inr] what was stored through [value]. *)
Definition ds250dfx10_read_register (address mask : Z) : M (Z + Z) :=
  res <- i2c_smbus_read_byte_data address ;;
  if res <? 0 then
    dev_err "failed to read register %#04x: %d\n" [address; res] ;;;
    pure (inl (- EIO))
  else
    pure (inr (uint8 (Z.land res mask))).

(** The part of [ds250dfx10_write_register] under "write new value". *)
Definition write_new_value (address value : Z) : M Z :=
  res <- i2c_smbus_write_byte_data address value ;;
  if res <? 0 then
    dev_err "failed to write register %#04x=%#04x: %d\n" [address; value; res] ;;;
    pure (- EIO)
  else
    pure 0.

Definition ds250dfx10_write_register (address value mask : Z) : M Z :=
  if negb (mask =? 0xFF) then
    r <- ds250dfx10_read_register address (uint8 (Z.lnot mask)) ;;
    match r with
    | inl e => pure e
    | inr tmp => write_new_value address (uint8 (Z.lor (Z.land value mask) tmp))
    end
  else
    write_new_value address value.

(** ** Channel configuration *)

Definition ds250dfx10_config_10g (channel : Z) : M unit :=
  let ret := 0 in
  (* enable smbus access to single channel *)
  r <- ds250dfx10_write_register 0xFF 0x01 0x03 ;; let ret := Z.lor ret r in
  (* select channel *)
  r <- ds250dfx10_write_register 0xFC (uint8 (Z.shiftl 1 channel)) 0xFF ;;
  let ret := Z.lor ret r in
  (* reset channel registers *)
  r <- ds250dfx10_write_register 0x00 0x04 0x04 ;; let ret := Z.lor ret r in
  (* assert cdr *)
  r <- ds250dfx10_write_register 0x0A 0x0C 0x0C ;; let ret := Z.lor ret r in
  (* select 10.3125 rate *)
  r <- ds250dfx10_write_register 0x2F 0x00 0xF0 ;; let ret := Z.lor ret r in
  (* enable pre- and post-fir *)
  r <- ds250dfx10_write_register 0x3D 0x80 0x80 ;; let ret := Z.lor ret r in
  (* set main cursor magnitude +15 *)
  r <- ds250dfx10_write_register 0x3D 0x00 0x40 ;; let ret := Z.lor ret r in
  r <- ds250dfx10_write_register 0x3D 0x0F 0x1F ;; let ret := Z.lor ret r in
  (* set pre cursor magnitude -4 *)
  r <- ds250dfx10_write_register 0x3E 0x40 0x40 ;; let ret := Z.lor ret r in
  r <- ds250dfx10_write_register 0x3E 0x04 0x0F ;; let ret := Z.lor ret r in
  (* set post cursor magnitude -4 *)
  r <- ds250dfx10_write_register 0x3F 0x40 0x40 ;; let ret := Z.lor ret r in
  r <- ds250dfx10_write_register 0x3F 0x04 0x0F ;; let ret := Z.lor ret r in
  (* deassert cdr *)
  r <- ds250dfx10_write_register 0x0A 0x00 0x0C ;; let ret := Z.lor ret r in
  if ret =? 0 then dev_info "configured channel %u for 10G\n" [channel]
  else pure tt.

Definition ds250dfx10_config_25g (channel : Z) : M unit :=
  let ret := 0 in
  (* enable smbus access to single channel *)
  r <- ds250dfx10_write_register 0xFF 0x01 0x03 ;; let ret := Z.lor ret r in
  (* select channel *)
  r <- ds250dfx10_write_register 0xFC (uint8 (Z.shiftl 1 channel)) 0xFF ;;
  let ret := Z.lor ret r in
  (* reset channel registers *)
  r <- ds250dfx10_write_register 0x00 0x04 0x04 ;; let ret := Z.lor ret r in
  (* assert cdr *)
  r <- ds250dfx10_write_register 0x0A 0x0C 0x0C ;; let ret := Z.lor ret r in
  (* select 25.78125 rate *)
  r <- ds250dfx10_write_register 0x2F 0x50 0xF0 ;; let ret := Z.lor ret r in
  (* enable pre- and post-fir *)
  r <- ds250dfx10_write_register 0x3D 0x80 0x80 ;; let ret := Z.lor ret r in
  (* set main cursor magnitude +15 *)
  r <- ds250dfx10_write_register 0x3D 0x00 0x40 ;; let ret := Z.lor ret r in
  r <- ds250dfx10_write_register 0x3D 0x0F 0x1F ;; let ret := Z.lor ret r in
  (* set pre cursor magnitude -4 *)
  r <- ds250dfx10_write_register 0x3E 0x40 0x40 ;; let ret := Z.lor ret r in
  r <- ds250dfx10_write_register 0x3E 0x04 0x0F ;; let ret := Z.lor ret r in
  (* set post cursor magnitude -4 *)
  r <- ds250dfx10_write_register 0x3F 0x40 0x40 ;; let ret := Z.lor ret r in
  r <- ds250dfx10_write_register 0x3F 0x04 0x0F ;; let ret := Z.lor ret r in
  (* deassert cdr *)
  r <- ds250dfx10_write_register 0x0A 0x00 0x0C ;; let ret := Z.lor ret r in
  if ret =? 0 then dev_info "configured channel %u for 25G\n" [channel]
  else pure tt.

(** [priv] is what [phy_get_drvdata(phy)] returns. *)
Definition ds250dfx10_phy_set_mode (priv : ds250dfx10_phy_priv)
    (mode submode : Z) : M Z :=
  if negb (mode =? PHY_MODE_ETHERNET) then pure (- EOPNOTSUPP)
  else if submode =? PHY_INTERFACE_MODE_10GBASER then
    ds250dfx10_config_10g (channel priv) ;;; pure 0
  else if submode =? PHY_INTERFACE_MODE_25GBASER then
    ds250dfx10_config_25g (channel priv) ;;; pure 0
  else
    dev_err "unsupported interface submode %i\n" [submode] ;;;
    pure (- EOPNOTSUPP).

(** ** Lane lookup *)

(** [struct of_phandle_args]: the cells of the consumer's phandle, each a
    [uint32_t]. *)
Record of_phandle_args : Type := { args_count : Z; args : list Z }.

(** Conversion of a [uint32_t] to [int]. *)
Definition int_of_u32 (z : Z) : Z := if z <? 2 ^ 31 then z else z - 2 ^ 32.

(** Conversion of an [int] to [size_t], for the comparison with
    [ARRAY_SIZE]. *)
Definition size_t_of_int (z : Z) : Z := z mod 2 ^ 64.

Definition WARN_ON (condition : bool) : M bool :=
  if condition then emit WarnOn ;;; pure true else pure false.

(** [phy_priv] is what [dev_get_drvdata(dev)] returns. *)
Definition ds250dfx10_of_xlate (phy_priv : ds250dfx10_priv)
    (a : of_phandle_args) : M (ptr_or_err phy_handle) :=
  if negb (args_count a =? 1) then
    dev_err "DT did not pass correct no of args\n" [] ;;;
    pure (ERR_PTR (- ENODEV))
  else
    let channel := int_of_u32 (default 0 (args a !! 0%nat)) in
    out_of_range <- WARN_ON (8 <=? size_t_of_int channel) ;;
    if out_of_range then pure (ERR_PTR (- ENODEV))
    else
      match phy phy_priv !! Z.to_nat channel with
      | Some (Some p) => pure (PTR p)
      | _ => pure (ERR_PTR (- ENODEV))
      end.

(** ** Device setup *)

Definition devm_kzalloc : M bool := ask kzalloc_succeeds.

(** [i2c_set_clientdata(client, priv)] for the freshly allocated [priv]. *)
Definition i2c_set_clientdata (priv : ds250dfx10_priv) : M unit := fun w =>
  (tt, {| kernel := kernel w; trace := trace w;
          phy_objs := phy_objs w; clientdata := Some priv |}).

(** A store through the [priv] pointer. *)
Definition modify_priv (f : ds250dfx10_priv -> ds250dfx10_priv) : M unit :=
  fun w =>
  (tt, {| kernel := kernel w; trace := trace w;
          phy_objs := phy_objs w; clientdata := f <$> clientdata w |}).

Definition set_phy (i : Z) (p : option phy_handle) : M unit :=
  modify_priv (fun priv =>
    {| phy := <[Z.to_nat i := p]> (phy priv); provider := provider priv |}).

Definition set_provider (r : ptr_or_err unit) : M unit :=
  modify_priv (fun priv => {| phy := phy priv; provider := Some r |}).

Definition modify_phy_obj (p : phy_handle) (f : phy_obj -> phy_obj) : M unit :=
  fun w =>
  (tt, {| kernel := kernel w; trace := trace w;
          phy_objs := alter f p (phy_objs w); clientdata := clientdata w |}).

(** A new [struct phy], or the error the kernel reports. *)
Definition devm_phy_create : M (ptr_or_err phy_handle) :=
  e <- ask phy_create_result ;;
  if e <? 0 then
    emit (PhyCreate (ERR_PTR e)) ;;; pure (ERR_PTR e)
  else fun w =>
    let p := length (phy_objs w) in
    (PTR p, {| kernel := kernel w; trace := trace w ++ [PhyCreate (PTR p)];
               phy_objs := phy_objs w ++ [{| drvdata := None; destroyed := false |}];
               clientdata := clientdata w |}).

Definition devm_phy_destroy (p : phy_handle) : M unit :=
  emit (PhyDestroy p) ;;;
  modify_phy_obj p (fun o => {| drvdata := drvdata o; destroyed := true |}).

Definition phy_set_drvdata (p : phy_handle) (d : ds250dfx10_phy_priv) : M unit :=
  modify_phy_obj p (fun o => {| drvdata := Some d; destroyed := destroyed o |}).

Definition devm_of_phy_provider_register : M (ptr_or_err unit) :=
  e <- ask provider_register_result ;;
  let r := if e <? 0 then ERR_PTR e else PTR tt in
  emit (ProviderRegister r) ;;; pure r.

(** The body of "for (i = 0; i < channels; i++)" with [remaining] passes
    left; [Some ret] is a jump to [no_provider]. *)
Fixpoint probe_create_phys (remaining : nat) (i : Z) : M (option Z) :=
  match remaining with
  | O => pure None
  | S remaining' =>
    r <- devm_phy_create ;;
    match r with
    | ERR_PTR e =>
      set_phy i None ;;;
      pure (Some e)
    | PTR p =>
      set_phy i (Some p) ;;;
      ok <- devm_kzalloc ;;
      if negb ok then pure (Some (- ENOMEM))
      else
        phy_set_drvdata p {| channel := 0 |} ;;;
        phy_set_drvdata p {| channel := uint8 i |} ;;;
        dev_info "created phy for channel %u\n" [i] ;;;
        probe_create_phys remaining' (i + 1)
    end
  end.

(** The loop under [no_provider] and in [ds250dfx10_remove]. *)
Fixpoint destroy_phys (slots : list (option phy_handle)) : M unit :=
  match slots with
  | [] => pure tt
  | Some p :: slots' => devm_phy_destroy p ;;; destroy_phys slots'
  | None :: slots' => destroy_phys slots'
  end.

Definition no_provider (ret : Z) : M Z := fun w =>
  (destroy_phys (take 8 (default [] (phy <$> clientdata w))) ;;; pure ret) w.

Definition ds250dfx10_probe : M Z :=
  ok <- devm_kzalloc ;;
  if negb ok then pure (- ENOMEM)
  else
  i2c_set_clientdata priv_zeroed ;;;
  (* read device identification *)
  r <- ds250dfx10_read_register DS250DF410_REG_DEVICE_ID 0xFF ;;
  match r with inl ret => pure ret | inr reg =>
  let device_id := reg in
  (* read device version *)
  r <- ds250dfx10_read_register DS250DF410_REG_VERSION 0xFF ;;
  match r with inl ret => pure ret | inr reg =>
  let version := reg in
  (* report device id *)
  dev_info "device id %#04x version %#04x\n" [device_id; version] ;;;
  (if device_id =? 0x10 then pure tt
   else dev_warn "unknown device id, expect problems!\n" []) ;;;
  (* read channel config id *)
  r <- ds250dfx10_read_register DS250DF410_REG_CHAN_CONFIG_ID
         DS250DF410_MASK_CHAN_CONFIG_ID ;;
  match r with inl ret => pure ret | inr reg =>
  let chan_config_id := reg in
  match (if chan_config_id =? 0xC then Some 8
         else if chan_config_id =? 0xE then Some 4
         else None) with
  | None =>
    dev_err "unknown channel configuration id %#03x\n" [chan_config_id] ;;;
    pure (- EINVAL)
  | Some channels =>
  dev_info "%u channels\n" [channels] ;;;
  (* read channel version *)
  r <- ds250dfx10_read_register DS250DF410_REG_CHAN_VERSION 0xFF ;;
  match r with inl ret => pure ret | inr reg =>
  let chan_version := Z.shiftr (Z.land reg DS250DF410_MASK_CHAN_VERSION) 4 in
  let share_version := Z.land reg DS250DF410_MASK_SHARE_VERSION in
  dev_info "channel version %#03x share version %#03x\n"
    [chan_version; share_version] ;;;
  (* create PHY objects for all channels *)
  jump <- probe_create_phys (Z.to_nat channels) 0 ;;
  match jump with
  | Some ret => no_provider ret
  | None =>
    (* register self as phy provider with generic lookup function *)
    r <- devm_of_phy_provider_register ;;
    set_provider r ;;;
    pure 0
  end
  end end end end end.

Definition ds250dfx10_remove : M Z := fun w =>
  (destroy_phys (take 8 (default [] (phy <$> clientdata w))) ;;; pure 0) w.

End Driver.

Arguments world K : clear implicits.
Arguments M K A : clear implicits.

(** ** The spec's view of the configurator *)

(** The spec's Register Write Spec: an (address, value, mask) triple. *)
Record reg_write : Type := RegWrite { rw_address : Z; rw_value : Z; rw_mask : Z }.

Inductive rate : Type := Rate10G | Rate25G.

(** The spec's line-rate selector: the code of the high nibble at 0x2F. *)
Definition rate_nibble (r : rate) : Z :=
  match r with Rate10G => 0x0 | Rate25G => 0x5 end.

(** The spec's rate configuration sequence (section 4.2, steps 1 to 9).
    Where a step of the spec names no mask (the sign and the magnitude of a
    cursor), the mask is the one the driver passes: 0x40 for a sign, 0x1F for
    the main magnitude, 0x0F for the pre and post magnitudes. *)
Definition configure_steps (r : rate) (channel : Z) : list reg_write :=
  [ RegWrite 0xFF 0x01 0x03;                       (* 1: paging *)
    RegWrite 0xFC (Z.shiftl 1 channel) 0xFF;       (* 2: channel select *)
    RegWrite 0x00 0x04 0x04;                       (* 3: channel reset *)
    RegWrite 0x0A 0x0C 0x0C;                       (* 4: CDR hold *)
    RegWrite 0x2F (Z.shiftl (rate_nibble r) 4) 0xF0; (* 5: line rate *)
    RegWrite 0x3D 0x80 0x80;                       (* 6: tap enable *)
    RegWrite 0x3D 0x00 0x40;                       (* 7: main cursor sign *)
    RegWrite 0x3D 0x0F 0x1F;                       (*    main cursor magnitude *)
    RegWrite 0x3E 0x40 0x40;                       (* 8: pre cursor sign *)
    RegWrite 0x3E 0x04 0x0F;                       (*    pre cursor magnitude *)
    RegWrite 0x3F 0x40 0x40;                       (*    post cursor sign *)
    RegWrite 0x3F 0x04 0x0F;                       (*    post cursor magnitude *)
    RegWrite 0x0A 0x00 0x0C ].                     (* 9: CDR release *)

Definition rate_name (r : rate) : string :=
  match r with
  | Rate10G => "configured channel %u for 10G\n"
  | Rate25G => "configured channel %u for 25G\n"
  end.

Section Spec.
Context {K : Type} `{!Kernel K} `{!PhyABI}.

(** The spec's [configure(channel, rate)]: what [ds250dfx10_phy_set_mode]
    dispatches to. *)
Definition configure (r : rate) (channel : Z) : M K unit :=
  match r with
  | Rate10G => ds250dfx10_config_10g channel
  | Rate25G => ds250dfx10_config_25g channel
  end.

(** Issue masked writes one after the other through the register access
    layer, whatever each returns, or-ing the results (continue on error). *)
Fixpoint issue_writes (steps : list reg_write) (ret : Z) : M K Z :=
  match steps with
  | [] => pure ret
  | s :: steps' =>
    r <- ds250dfx10_write_register (rw_address s) (rw_value s) (rw_mask s) ;;
    issue_writes steps' (Z.lor ret r)
  end.

(** The spec's step 10: success is logged when every write succeeded. *)
Definition issue_and_report (steps : list reg_write) (r : rate) (channel : Z)
    : M K unit :=
  ret <- issue_writes steps 0 ;;
  if ret =? 0 then dev_info (rate_name r) [channel] else pure tt.

End Spec.

(** ** Reading traces *)

Definition is_bus_event (e : event) : bool :=
  match e with SmbusRead _ _ | SmbusWrite _ _ _ => true | _ => false end.

(** The bus transactions of a trace, in order. *)
Definition bus_events (t : list event) : list event :=
  List.filter is_bus_event t.

Definition is_bus_write (e : event) : bool :=
  match e with SmbusWrite _ _ _ => true | _ => false end.

(** A transaction that the transport failed. *)
Definition is_bus_failure (e : event) : bool :=
  match e with
  | SmbusRead _ res => res <? 0
  | SmbusWrite _ _ res => res <? 0
  | _ => false
  end.

Definition is_phy_create (e : event) : bool :=
  match e with PhyCreate _ => true | _ => false end.

Definition is_provider_register (e : event) : bool :=
  match e with ProviderRegister _ => true | _ => false end.

(** The bus transactions by which the register access layer attempts one
    masked write: a plain write for the full mask; otherwise a read that
    fails, or a read and the write of the merged byte. *)
Inductive attempt : reg_write -> list event -> Prop :=
| attempt_full a v res :
    attempt (RegWrite a v 0xFF) [SmbusWrite a v res]
| attempt_read_failed a v m res :
    m <> 0xFF -> res < 0 ->
    attempt (RegWrite a v m) [SmbusRead a res]
| attempt_read_write a v m res res' :
    m <> 0xFF -> 0 <= res ->
    attempt (RegWrite a v m)
      [SmbusRead a res;
       SmbusWrite a (Z.lor (Z.land v m) (Z.land res (uint8 (Z.lnot m)))) res'].

(** ** A simulated chip, bus and allocator *)

(** Registers as address/value pairs (absent: 0); each list of faults is
    consumed one entry per call, [true] making that call fail; an exhausted
    list means no more faults. *)
Record sim : Type := {
  regs : list (Z * Z);
  bus_faults : list bool;
  alloc_faults : list bool;
  phy_faults : list bool
}.

Fixpoint sim_lookup (address : Z) (rs : list (Z * Z)) : Z :=
  match rs with
  | [] => 0
  | (a, v) :: rs' => if a =? address then v else sim_lookup address rs'
  end.

Definition next_fault (faults : list bool) : bool * list bool :=
  match faults with [] => (false, []) | f :: faults' => (f, faults') end.

Definition sim_read (address : Z) (s : sim) : Z * sim :=
  let (f, fs) := next_fault (bus_faults s) in
  let s' := {| regs := regs s; bus_faults := fs;
               alloc_faults := alloc_faults s; phy_faults := phy_faults s |} in
  if f then (- 6, s') else (sim_lookup address (regs s), s').

Definition sim_write (address value : Z) (s : sim) : Z * sim :=
  let (f, fs) := next_fault (bus_faults s) in
  if f then
    (- 6, {| regs := regs s; bus_faults := fs;
             alloc_faults := alloc_faults s; phy_faults := phy_faults s |})
  else
    (0, {| regs := (address, value) :: regs s; bus_faults := fs;
           alloc_faults := alloc_faults s; phy_faults := phy_faults s |}).

Definition sim_kzalloc (s : sim) : bool * sim :=
  let (f, fs) := next_fault (alloc_faults s) in
  (negb f, {| regs := regs s; bus_faults := bus_faults s;
              alloc_faults := fs; phy_faults := phy_faults s |}).

Definition sim_phy_create (s : sim) : Z * sim :=
  let (f, fs) := next_fault (phy_faults s) in
  (if f then - ENOMEM else 0,
   {| regs := regs s; bus_faults := bus_faults s;
      alloc_faults := alloc_faults s; phy_faults := fs |}).

#[export] Instance sim_kernel : Kernel sim := {|
  smbus_read_byte_data := sim_read;
  smbus_write_byte_data := sim_write;
  kzalloc_succeeds := sim_kzalloc;
  phy_create_result := sim_phy_create;
  provider_register_result := fun s => (0, s)
|}.

(** One numbering of the enumerators; nothing proved below depends on it. *)
#[export] Instance sample_abi : PhyABI := {|
  PHY_MODE_ETHERNET := 15;
  PHY_INTERFACE_MODE_10GBASER := 27;
  PHY_INTERFACE_MODE_25GBASER := 28;
  submodes_differ := ltac:(discriminate)
|}.

(** The world before the driver has run. *)
Definition boot (s : sim) : world sim :=
  {| kernel := s; trace := []; phy_objs := []; clientdata := None |}.

(** A DS250DF410 (device id 0x10, version 0x02, four channels). *)
Definition ds250df410_regs : list (Z * Z) :=
  [(0xF1, 0x10); (0xF0, 0x02); (0xEF, 0x0E); (0xF3, 0x31)].

(** A DS250DF810 (eight channels). *)
Definition ds250df810_regs : list (Z * Z) :=
  [(0xF1, 0x10); (0xF0, 0x02); (0xEF, 0x0C); (0xF3, 0x31)].

Definition healthy (rs : list (Z * Z)) : sim :=
  {| regs := rs; bus_faults := []; alloc_faults := []; phy_faults := [] |}.

(** The same chip behind a bus that fails the transactions marked [true]. *)
Definition faulty (rs : list (Z * Z)) (faults : list bool) : sim :=
  {| regs := rs; bus_faults := faults; alloc_faults := []; phy_faults := [] |}.

(** ** Runs *)

Section Runs.
Context {K : Type} `{!Kernel K} `{!PhyABI}.

Definition result {A : Type} (m : M K A) (w : world K) : A := (m w).1.

Definition after {A : Type} (m : M K A) (w : world K) : world K := (m w).2.

(** What a run appends to the trace. *)
Definition emitted {A : Type} (m : M K A) (w : world K) : list event :=
  drop (length (trace w)) (trace (after m w)).

Definition is_error_log (e : event) : bool :=
  match e with DevLog KERN_ERR _ _ => true | _ => false end.

(** The events the register access layer may leave in the trace. *)
Definition is_ral_event (e : event) : bool :=
  match e with
  | SmbusRead _ _ | SmbusWrite _ _ _ | DevLog KERN_ERR _ _ => true
  | _ => false
  end.

(** [w'] is [w] after bus traffic [seg]: the phy objects and the private data
    are as before. *)
Definition bus_run (w w' : world K) (seg : list event) : Prop :=
  trace w' = trace w ++ seg /\
  phy_objs w' = phy_objs w /\
  clientdata w' = clientdata w /\
  forallb is_ral_event seg = true.

Definition submode_of_rate (r : rate) : Z :=
  match r with
  | Rate10G => PHY_INTERFACE_MODE_10GBASER
  | Rate25G => PHY_INTERFACE_MODE_25GBASER
  end.

(** [w] after bus traffic [seg] that left the oracle in [k]. *)
Definition with_bus (w : world K) (k : K) (seg : list event) : world K :=
  {| kernel := k; trace := trace w ++ seg;
     phy_objs := phy_objs w; clientdata := clientdata w |}.

(** The [struct phy] of a lane after setup. *)
Definition lane_obj (c : Z) : phy_obj :=
  {| drvdata := Some {| channel := c |}; destroyed := false |}.

(** The line [ds250dfx10_read_register] logs for a failed read. *)
Definition read_failed (a res : Z) : event :=
  DevLog KERN_ERR "failed to read register %#04x: %d\n" [a; res].

(** What setup logs once the device id [r1] and the version [r2] are read. *)
Definition ident_report (r1 r2 : Z) : list event :=
  DevLog KERN_INFO "device id %#04x version %#04x\n"
    [uint8 (Z.land r1 0xFF); uint8 (Z.land r2 0xFF)]
  :: (if uint8 (Z.land r1 0xFF) =? 0x10 then []
      else [DevLog KERN_WARNING "unknown device id, expect problems!\n" []]).

(** The channel-config id in a read [r3] of register 0xEF. *)
Definition chan_config_id (r3 : Z) : Z :=
  uint8 (Z.land r3 DS250DF410_MASK_CHAN_CONFIG_ID).

(** The switch on the channel-config id. *)
Definition channels_of (id : Z) : option Z :=
  if id =? 0xC then Some 8 else if id =? 0xE then Some 4 else None.

(** The trace of an identification that went through: reads [r1] .. [r4]
    and [n] channels. *)
Definition identified (r1 r2 r3 n r4 : Z) : list event :=
  [SmbusRead 0xF1 r1; SmbusRead 0xF0 r2] ++ ident_report r1 r2 ++
  [SmbusRead 0xEF r3; DevLog KERN_INFO "%u channels\n" [n];
   SmbusRead 0xF3 r4;
   DevLog KERN_INFO "channel version %#03x share version %#03x\n"
     [Z.shiftr (Z.land (uint8 (Z.land r4 0xFF)) DS250DF410_MASK_CHAN_VERSION) 4;
      Z.land (uint8 (Z.land r4 0xFF)) DS250DF410_MASK_SHARE_VERSION]].

(** The ways [ds250dfx10_probe] ends: its return value, the world it leaves
    and what it appended to the trace. *)
Inductive probe_outcome (w : world K) : Z -> world K -> list event -> Prop :=
| probe_no_memory w' :
    phy_objs w' = phy_objs w ->
    clientdata w' = clientdata w ->
    probe_outcome w (- ENOMEM) w' []
| probe_no_device_id r1 w' :
    r1 < 0 ->
    phy_objs w' = phy_objs w ->
    clientdata w' = Some priv_zeroed ->
    probe_outcome w (- EIO) w' [SmbusRead 0xF1 r1; read_failed 0xF1 r1]
| probe_no_version r1 r2 w' :
    0 <= r1 -> r2 < 0 ->
    phy_objs w' = phy_objs w ->
    clientdata w' = Some priv_zeroed ->
    probe_outcome w (- EIO) w'
      [SmbusRead 0xF1 r1; SmbusRead 0xF0 r2; read_failed 0xF0 r2]
| probe_no_chan_config r1 r2 r3 w' :
    0 <= r1 -> 0 <= r2 -> r3 < 0 ->
    phy_objs w' = phy_objs w ->
    clientdata w' = Some priv_zeroed ->
    probe_outcome w (- EIO) w'
      ([SmbusRead 0xF1 r1; SmbusRead 0xF0 r2] ++ ident_report r1 r2 ++
       [SmbusRead 0xEF r3; read_failed 0xEF r3])
| probe_unknown_topology r1 r2 r3 w' :
    0 <= r1 -> 0 <= r2 -> 0 <= r3 ->
    channels_of (chan_config_id r3) = None ->
    phy_objs w' = phy_objs w ->
    clientdata w' = Some priv_zeroed ->
    probe_outcome w (- EINVAL) w'
      ([SmbusRead 0xF1 r1; SmbusRead 0xF0 r2] ++ ident_report r1 r2 ++
       [SmbusRead 0xEF r3;
        DevLog KERN_ERR "unknown channel configuration id %#03x\n"
          [chan_config_id r3]])
| probe_no_chan_version r1 r2 r3 n r4 w' :
    0 <= r1 -> 0 <= r2 -> 0 <= r3 -> r4 < 0 ->
    channels_of (chan_config_id r3) = Some n ->
    phy_objs w' = phy_objs w ->
    clientdata w' = Some priv_zeroed ->
    probe_outcome w (- EIO) w'
      ([SmbusRead 0xF1 r1; SmbusRead 0xF0 r2] ++ ident_report r1 r2 ++
       [SmbusRead 0xEF r3; DevLog KERN_INFO "%u channels\n" [n];
        SmbusRead 0xF3 r4; read_failed 0xF3 r4])
| probe_lanes_failed r1 r2 r3 n r4 e seg w' :
    0 <= r1 -> 0 <= r2 -> 0 <= r3 -> 0 <= r4 ->
    channels_of (chan_config_id r3) = Some n ->
    e < 0 ->
    bus_events seg = [] ->
    List.filter is_provider_register seg = [] ->
    (length (phy_objs w') <= length (phy_objs w) + Z.to_nat n)%nat ->
    (forall d,
       In (Some d) (drop (length (phy_objs w)) (drvdata <$> phy_objs w')) ->
       0 <= channel d < n) ->
    probe_outcome w e w' (identified r1 r2 r3 n r4 ++ seg)
| probe_ok r1 r2 r3 n r4 seg r priv' w' :
    0 <= r1 -> 0 <= r2 -> 0 <= r3 -> 0 <= r4 ->
    channels_of (chan_config_id r3) = Some n ->
    bus_events seg = [] ->
    List.filter is_provider_register seg = [] ->
    clientdata w' = Some priv' ->
    provider priv' = Some r ->
    length (phy priv') = 8%nat ->
    length (phy_objs w') = (length (phy_objs w) + Z.to_nat n)%nat ->
    (forall j, (j < Z.to_nat n)%nat ->
       phy priv' !! j = Some (Some (length (phy_objs w) + j)%nat) /\
       phy_objs w' !! (length (phy_objs w) + j)%nat
       = Some (lane_obj (Z.of_nat j))) ->
    (forall k, (Z.to_nat n <= k < 8)%nat -> phy priv' !! k = Some None) ->
    probe_outcome w 0 w' (identified r1 r2 r3 n r4 ++ seg ++ [ProviderRegister r]).

(** Setup found [n] channels: it says so in the log, creates at most [n]
    phy objects and, when it returns 0, exactly [n], whose handles fill the
    slots 0 .. n-1 in order, the other slots staying NULL. *)
Definition discovered (n : Z) (w : world K) : Prop :=
  In (DevLog KERN_INFO "%u channels\n" [n]) (emitted ds250dfx10_probe w) /\
  (length (phy_objs (after ds250dfx10_probe w))
   <= length (phy_objs w) + Z.to_nat n)%nat /\
  (result ds250dfx10_probe w = 0 ->
   length (phy_objs (after ds250dfx10_probe w))
   = (length (phy_objs w) + Z.to_nat n)%nat /\
   exists priv,
     clientdata (after ds250dfx10_probe w) = Some priv /\
     (forall j, (j < Z.to_nat n)%nat ->
        phy priv !! j = Some (Some (length (phy_objs w) + j)%nat)) /\
     (forall k, (Z.to_nat n <= k < 8)%nat -> phy priv !! k = Some None)).

(** Setup created nothing: no phy object, no provider, every slot NULL. *)
Definition nothing_created (w : world K) : Prop :=
  phy_objs (after ds250dfx10_probe w) = phy_objs w /\
  List.filter is_phy_create (emitted ds250dfx10_probe w) = [] /\
  List.filter is_provider_register (emitted ds250dfx10_probe w) = [] /\
  clientdata (after ds250dfx10_probe w) = Some priv_zeroed.

(** Claim C2 as the spec states it: when a transaction of the sequence fails, every
    step is still attempted and the request returns an error to its
    caller. *)
Definition failure_reported_to_caller (priv : ds250dfx10_phy_priv) (r : rate)
    (w : world K) : Prop :=
  existsb is_bus_failure
    (emitted (ds250dfx10_phy_set_mode priv PHY_MODE_ETHERNET (submode_of_rate r)) w)
  = true ->
  (exists segs,
     Forall2 attempt (configure_steps r (channel priv)) segs /\
     bus_events
       (emitted (ds250dfx10_phy_set_mode priv PHY_MODE_ETHERNET (submode_of_rate r)) w)
     = concat segs) /\
  result (ds250dfx10_phy_set_mode priv PHY_MODE_ETHERNET (submode_of_rate r)) w <> 0.

(** Claim C4 as the spec states it: a partial mask always gives one read and one
    write. *)
Definition masked_write_as_stated (a v m : Z) (w : world K) : Prop :=
  (m = 0xFF ->
   exists res,
     bus_events (emitted (ds250dfx10_write_register a v m) w) = [SmbusWrite a v res]) /\
  (m <> 0xFF ->
   exists res res',
     bus_events (emitted (ds250dfx10_write_register a v m) w)
     = [SmbusRead a res;
        SmbusWrite a (Z.lor (Z.land v m) (Z.land res (uint8 (Z.lnot m)))) res']).

(** The cell list of a lookup by channel index. *)
Definition lookup_args (index : Z) : of_phandle_args :=
  {| args_count := 1; args := [index] |}.

End Runs.

(** ** More readings of a trace and of the driver's code *)

(** The register a bus transaction addresses. *)
Definition event_address (e : event) : option Z :=
  match e with
  | SmbusRead a _ | SmbusWrite a _ _ => Some a
  | _ => None
  end.

(** The registers [ds250dfx10_config_10g] and [ds250dfx10_config_25g] name. *)
Definition configure_registers : list Z :=
  [0xFF; 0xFC; 0x00; 0x0A; 0x2F; 0x3D; 0x3E; 0x3F].

(** The bus transactions a list of masked writes takes when no read fails:
    one for a full mask, two otherwise. *)
Definition full_traffic (steps : list reg_write) : nat :=
  length (List.filter (fun s => rw_mask s =? 0xFF) steps)
  + 2 * length (List.filter (fun s => negb (rw_mask s =? 0xFF)) steps).

(** The warning of [ds250dfx10_probe] on a device id other than 0x10. *)
Definition unknown_id_warning : event :=
  DevLog KERN_WARNING "unknown device id, expect problems!\n" [].

(** What [devm_phy_destroy] does to a phy object. *)
Definition mark_destroyed (o : phy_obj) : phy_obj :=
  {| drvdata := drvdata o; destroyed := true |}.

(** The handles in the slots of [struct ds250dfx10_priv], in slot order. *)
Definition handles (slots : list (option nat)) : list nat := omap id slots.

Section MoreRuns.
Context {K : Type} `{!Kernel K} `{!PhyABI}.

(** [ds250dfx10_probe] from "create PHY objects for all channels" on, for
    [channels] channels. *)
Definition probe_lanes (channels : Z) : M K Z :=
  jump <- probe_create_phys (Z.to_nat channels) 0 ;;
  match jump with
  | Some ret => no_provider ret
  | None =>
    r <- devm_of_phy_provider_register ;;
    set_provider r ;;;
    pure 0
  end.

End MoreRuns.

(** ** Facts on bytes *)

Lemma uint8_small z : 0 <= z < 256 -> uint8 z = z.
Proof. intros. unfold uint8. now apply Z.mod_small. Qed.

Lemma uint8_testbit z n :
  0 <= n -> Z.testbit (uint8 z) n = (n <? 8) && Z.testbit z n.
Proof.
  intros Hn. unfold uint8. change 256 with (2 ^ 8).
  destruct (Z.ltb_spec n 8).
  - now rewrite Z.mod_pow2_bits_low.
  - now rewrite Z.mod_pow2_bits_high by lia.
Qed.

Lemma byte_testbit_high m n : 0 <= m < 256 -> 8 <= n -> Z.testbit m n = false.
Proof.
  intros Hm Hn. rewrite <- (uint8_small m Hm), uint8_testbit by lia.
  destruct (Z.ltb_spec n 8); [lia | reflexivity].
Qed.

(** The byte a masked write puts on the bus needs no truncation. *)
Lemma merged_byte v m res :
  0 <= m < 256 ->
  uint8 (Z.lor (Z.land v m) (uint8 (Z.land res (uint8 (Z.lnot m)))))
  = Z.lor (Z.land v m) (Z.land res (uint8 (Z.lnot m))).
Proof.
  intros Hm. apply Z.bits_inj'. intros n Hn.
  rewrite uint8_testbit, !Z.lor_spec, !Z.land_spec, uint8_testbit by lia.
  rewrite Z.land_spec, uint8_testbit by lia.
  destruct (Z.ltb_spec n 8); simpl; [reflexivity |].
  rewrite (byte_testbit_high m n) by lia.
  now rewrite !andb_false_r.
Qed.

Lemma one_hot c : 0 <= c < 8 -> uint8 (Z.shiftl 1 c) = 2 ^ c.
Proof.
  intros Hc. rewrite Z.shiftl_1_l. apply uint8_small.
  split; [apply Z.pow_nonneg; lia |].
  change 256 with (2 ^ 8). apply Z.pow_lt_mono_r; lia.
Qed.

Lemma lor_errno a b : (a = 0 \/ a = - EIO) -> (b = 0 \/ b = - EIO) ->
  Z.lor a b = 0 \/ Z.lor a b = - EIO.
Proof. intros [-> | ->] [-> | ->]; vm_compute; auto. Qed.

(** ** The register access layer, call by call *)

Section RegisterAccess.
Context {K : Type} `{!Kernel K} `{!PhyABI}.
Implicit Types (w : world K) (seg : list event).

Lemma emitted_of_trace {A} (m : M K A) w seg :
  trace (after m w) = trace w ++ seg -> emitted m w = seg.
Proof. unfold emitted. intros ->. apply drop_app_length. Qed.

Lemma with_bus_run w k seg :
  forallb is_ral_event seg = true -> bus_run w (with_bus w k seg) seg.
Proof. now repeat split. Qed.

Lemma bus_run_trans w1 w2 w3 seg1 seg2 :
  bus_run w1 w2 seg1 -> bus_run w2 w3 seg2 -> bus_run w1 w3 (seg1 ++ seg2).
Proof.
  intros (Ht1 & Hp1 & Hc1 & Hf1) (Ht2 & Hp2 & Hc2 & Hf2).
  repeat split; try congruence.
  - rewrite Ht2, Ht1. now rewrite app_assoc.
  - rewrite forallb_app. now rewrite Hf1, Hf2.
Qed.

Lemma read_register_eq a m w :
  ds250dfx10_read_register a m w =
  let (res, k) := smbus_read_byte_data a (kernel w) in
  if res <? 0 then
    (inl (- EIO),
     with_bus w k [SmbusRead a res;
                   DevLog KERN_ERR "failed to read register %#04x: %d\n" [a; res]])
  else (inr (uint8 (Z.land res m)), with_bus w k [SmbusRead a res]).
Proof.
  unfold ds250dfx10_read_register, i2c_smbus_read_byte_data, dev_err, bind, ask,
    emit, pure, with_bus.
  destruct (smbus_read_byte_data a (kernel w)) as [res k]. cbn.
  destruct (res <? 0); cbn; [| reflexivity].
  now rewrite <- app_assoc.
Qed.

Lemma write_new_value_eq a v w :
  write_new_value a v w =
  let (res, k) := smbus_write_byte_data a v (kernel w) in
  if res <? 0 then
    (- EIO,
     with_bus w k
       [SmbusWrite a v res;
        DevLog KERN_ERR "failed to write register %#04x=%#04x: %d\n" [a; v; res]])
  else (0, with_bus w k [SmbusWrite a v res]).
Proof.
  unfold write_new_value, i2c_smbus_write_byte_data, dev_err, bind, ask,
    emit, pure, with_bus.
  destruct (smbus_write_byte_data a v (kernel w)) as [res k]. cbn.
  destruct (res <? 0); cbn; [| reflexivity].
  now rewrite <- app_assoc.
Qed.

(** One masked write, whatever the bus does: the bus sees one attempt, and
    the call returns 0 when no transaction failed and -EIO otherwise. *)
Lemma write_register_summary a v m w :
  0 <= m < 256 ->
  exists seg,
    bus_run w (after (ds250dfx10_write_register a v m) w) seg /\
    attempt (RegWrite a v m) (bus_events seg) /\
    existsb is_error_log seg = existsb is_bus_failure seg /\
    (result (ds250dfx10_write_register a v m) w = 0 /\
     existsb is_bus_failure seg = false \/
     result (ds250dfx10_write_register a v m) w = - EIO /\
     existsb is_bus_failure seg = true).
Proof.
  intros Hm. unfold result, after, ds250dfx10_write_register.
  destruct (Z.eqb_spec m 0xFF) as [-> | Hne]; cbn [negb].
  - rewrite write_new_value_eq.
    destruct (smbus_write_byte_data a v (kernel w)) as [res k].
    destruct (Z.ltb_spec res 0) as [Hres | Hres]; cbn [fst snd];
      eexists; (split; [apply with_bus_run; reflexivity |]);
      (split; [apply attempt_full |]); cbn.
    + apply Z.ltb_lt in Hres. rewrite Hres. auto.
    + apply Z.ltb_ge in Hres. rewrite Hres. auto.
  - unfold bind. rewrite read_register_eq.
    destruct (smbus_read_byte_data a (kernel w)) as [res k].
    destruct (Z.ltb_spec res 0) as [Hres | Hres].
    + cbn [fst snd pure]. eexists.
      split; [apply with_bus_run; reflexivity |].
      split; [now apply attempt_read_failed |]. cbn.
      apply Z.ltb_lt in Hres. rewrite Hres. auto.
    + rewrite write_new_value_eq. cbn [kernel with_bus].
      rewrite merged_byte by exact Hm.
      destruct (smbus_write_byte_data a _ k) as [res' k'].
      apply Z.ltb_ge in Hres.
      destruct (Z.ltb_spec res' 0) as [Hres' | Hres']; cbn [fst snd];
        eexists;
        (split; [eapply bus_run_trans; apply with_bus_run; reflexivity |]);
        (split; [apply attempt_read_write; [exact Hne | now apply Z.ltb_ge] |]);
        cbn; rewrite Hres.
      * apply Z.ltb_lt in Hres'. rewrite Hres'. auto.
      * apply Z.ltb_ge in Hres'. rewrite Hres'. auto.
Qed.

End RegisterAccess.

(** ** The configurator against the spec's sequence *)

Section Configurator.
Context {K : Type} `{!Kernel K} `{!PhyABI}.
Implicit Types (w : world K) (seg : list event).

Lemma bind_run {A B} (m : M K A) (f : A -> M K B) w :
  bind m f w = f (result m w) (after m w).
Proof. unfold bind, result, after. now destruct (m w). Qed.

Lemma bus_run_refl w : bus_run w w [].
Proof. repeat split. now rewrite app_nil_r. Qed.

Lemma bus_events_app seg1 seg2 :
  bus_events (seg1 ++ seg2) = bus_events seg1 ++ bus_events seg2.
Proof. apply List.filter_app. Qed.

(** Both configuration functions are the spec's sequence, issued step by step
    through [ds250dfx10_write_register] with the results or-ed. *)
Lemma configure_refines r channel w :
  0 <= channel < 8 ->
  configure r channel w
  = issue_and_report (configure_steps r channel) r channel w.
Proof.
  intros Hc.
  unfold configure, issue_and_report, configure_steps,
    ds250dfx10_config_10g, ds250dfx10_config_25g.
  cbn [issue_writes rw_address rw_value rw_mask].
  rewrite (one_hot channel Hc), Z.shiftl_1_l.
  destruct r; cbn [rate_nibble rate_name];
    [change (Z.shiftl 0 4) with 0 | change (Z.shiftl 5 4) with 80];
    unfold bind;
    repeat match goal with
    | |- context [ds250dfx10_write_register ?a ?v ?m ?x] =>
      destruct (ds250dfx10_write_register a v m x) as [? ?]
    end; reflexivity.
Qed.

Lemma issue_writes_summary steps :
  forall ret w,
  Forall (fun s => 0 <= rw_mask s < 256) steps ->
  ret = 0 \/ ret = - EIO ->
  exists segs seg,
    bus_run w (after (issue_writes steps ret) w) seg /\
    Forall2 attempt steps segs /\
    bus_events seg = concat segs /\
    existsb is_error_log seg = existsb is_bus_failure seg /\
    (result (issue_writes steps ret) w = 0 /\ ret = 0 /\
     existsb is_bus_failure seg = false \/
     result (issue_writes steps ret) w = - EIO /\
     (ret = - EIO \/ existsb is_bus_failure seg = true)).
Proof.
  induction steps as [| [a v m] steps IH]; intros ret w Hmasks Hret.
  - exists [], []. split; [apply bus_run_refl |].
    split; [constructor |]. do 2 (split; [reflexivity |]).
    unfold result. cbn. destruct Hret as [-> | ->]; auto.
  - inversion Hmasks as [| ? ? Hm Hrest]; subst. cbn [rw_mask] in Hm.
    destruct (write_register_summary a v m w Hm) as (seg1 & Hrun1 & Hatt & Hlog1 & Hres1).
    set (r := result (ds250dfx10_write_register a v m) w) in *.
    set (w1 := after (ds250dfx10_write_register a v m) w) in *.
    assert (Hor : Z.lor ret r = 0 \/ Z.lor ret r = - EIO).
    { apply lor_errno; [exact Hret | tauto]. }
    destruct (IH (Z.lor ret r) w1 Hrest Hor) as (segs & seg2 & Hrun2 & Hall & Hbus & Hlog2 & Hres2).
    assert (Hstep : issue_writes (RegWrite a v m :: steps) ret w
                    = issue_writes steps (Z.lor ret r) w1).
    { cbn [issue_writes rw_address rw_value rw_mask].
      exact (bind_run _ (fun r => issue_writes steps (Z.lor ret r)) w). }
    unfold result, after in *. rewrite Hstep.
    exists (bus_events seg1 :: segs), (seg1 ++ seg2).
    split; [eapply bus_run_trans; eassumption |].
    split; [now constructor |].
    split; [rewrite bus_events_app, Hbus; reflexivity |].
    rewrite !existsb_app.
    split; [now rewrite Hlog1, Hlog2 |].
    destruct Hres2 as [(Hz & Hlor & Hnf) | (Hz & Hf)].
    + left. apply Z.lor_eq_0_iff in Hlor as [Hret0 Hr0].
      destruct Hres1 as [(_ & Hnf1) | (Hr & _)]; [| unfold EIO in *; lia].
      now rewrite Hnf1, Hnf.
    + right. split; [exact Hz |].
      destruct Hf as [Hlor | Hf]; [| right; rewrite Hf; apply orb_true_r].
      destruct Hret as [-> | ->]; [| now left].
      destruct Hres1 as [(Hr & _) | (_ & Hf1)].
      * rewrite Hr in Hlor. discriminate Hlor.
      * right. now rewrite Hf1.
Qed.

Lemma configure_steps_masks r channel :
  Forall (fun s => 0 <= rw_mask s < 256) (configure_steps r channel).
Proof. unfold configure_steps. repeat constructor; cbn; lia. Qed.

(** A run of [configure]: thirteen attempts, then the success line unless a
    transaction failed. *)
Lemma configure_summary r channel w :
  0 <= channel < 8 ->
  exists segs seg,
    Forall2 attempt (configure_steps r channel) segs /\
    bus_events seg = concat segs /\
    forallb is_ral_event seg = true /\
    existsb is_error_log seg = existsb is_bus_failure seg /\
    phy_objs (after (configure r channel) w) = phy_objs w /\
    clientdata (after (configure r channel) w) = clientdata w /\
    emitted (configure r channel) w
    = seg ++ (if existsb is_bus_failure seg then []
              else [DevLog KERN_INFO (rate_name r) [channel]]).
Proof.
  intros Hc.
  destruct (issue_writes_summary (configure_steps r channel) 0 w
              (configure_steps_masks r channel) (or_introl eq_refl))
    as (segs & seg & (Ht & Hp & Hcd & Hral) & Hall & Hbus & Hlog & Hres).
  exists segs, seg. do 4 (split; [assumption |]).
  set (w1 := after (issue_writes (configure_steps r channel) 0) w) in *.
  set (ret := result (issue_writes (configure_steps r channel) 0) w) in *.
  assert (Hrun : configure r channel w
                 = (if ret =? 0 then dev_info (rate_name r) [channel]
                    else pure tt) w1).
  { rewrite (configure_refines r channel w Hc). unfold issue_and_report.
    exact (bind_run _ (fun ret => if ret =? 0 then _ else _) w). }
  unfold emitted, after. rewrite Hrun. clearbody w1 ret.
  destruct Hres as [(-> & _ & ->) | (-> & [Habs | ->])];
    [| discriminate Habs |].
  - cbn. rewrite Ht, <- app_assoc, drop_app_length. now repeat split.
  - change (- EIO =? 0) with false. cbn.
    rewrite Ht, app_nil_r, drop_app_length. now repeat split.
Qed.

End Configurator.

(** ** Claims on the configuration sequence *)

Section ConfigureClaims.
Context {K : Type} `{!Kernel K} `{!PhyABI}.
Implicit Types (w : world K) (seg : list event).

(** An Ethernet request for one of the two rates runs [configure] and returns
    0, whatever [configure] met. *)
Lemma set_mode_dispatch priv r w :
  ds250dfx10_phy_set_mode priv PHY_MODE_ETHERNET (submode_of_rate r) w
  = (0, after (configure r (channel priv)) w).
Proof.
  unfold ds250dfx10_phy_set_mode, after. rewrite Z.eqb_refl. cbn [negb].
  destruct r; cbn [submode_of_rate configure].
  - rewrite Z.eqb_refl. unfold bind, pure.
    now destruct (ds250dfx10_config_10g (channel priv) w).
  - destruct (Z.eqb_spec PHY_INTERFACE_MODE_25GBASER PHY_INTERFACE_MODE_10GBASER)
      as [Heq | _]; [now destruct submodes_differ |].
    rewrite Z.eqb_refl. unfold bind, pure.
    now destruct (ds250dfx10_config_25g (channel priv) w).
Qed.

Lemma set_mode_emitted priv r w :
  emitted (ds250dfx10_phy_set_mode priv PHY_MODE_ETHERNET (submode_of_rate r)) w
  = emitted (configure r (channel priv)) w.
Proof. unfold emitted, after at 1. now rewrite set_mode_dispatch. Qed.

(** C1: for a channel index (below 8) and either rate, [configure] is the
    spec's sequence of thirteen masked writes issued in order through the
    register access layer: paging 0xFF/0x01/0x03, channel select
    0xFC/(1 << channel)/0xFF, reset 0x00/0x04, CDR hold 0x0A/0x0C, line rate
    0x2F/high nibble, tap enable 0x3D/0x80, main cursor at 0x3D, pre cursor at
    0x3E, post cursor at 0x3F, CDR release 0x0A last.  On the bus this shows
    as one attempt per step, in that order; the CDR hold (step index 3) comes
    before the line rate (index 4) and the CDR release is the final write. *)
Theorem configure_issues_sequence r channel w :
  0 <= channel < 8 ->
  configure r channel w
  = issue_and_report (configure_steps r channel) r channel w /\
  (exists segs,
     Forall2 attempt (configure_steps r channel) segs /\
     bus_events (emitted (configure r channel) w) = concat segs) /\
  configure_steps r channel
  = [ RegWrite 0xFF 0x01 0x03; RegWrite 0xFC (Z.shiftl 1 channel) 0xFF;
      RegWrite 0x00 0x04 0x04; RegWrite 0x0A 0x0C 0x0C;
      RegWrite 0x2F (Z.shiftl (rate_nibble r) 4) 0xF0;
      RegWrite 0x3D 0x80 0x80; RegWrite 0x3D 0x00 0x40; RegWrite 0x3D 0x0F 0x1F;
      RegWrite 0x3E 0x40 0x40; RegWrite 0x3E 0x04 0x0F;
      RegWrite 0x3F 0x40 0x40; RegWrite 0x3F 0x04 0x0F;
      RegWrite 0x0A 0x00 0x0C ] /\
  configure_steps r channel !! 3%nat = Some (RegWrite 0x0A 0x0C 0x0C) /\
  configure_steps r channel !! 4%nat
  = Some (RegWrite 0x2F (Z.shiftl (rate_nibble r) 4) 0xF0) /\
  last (configure_steps r channel) = Some (RegWrite 0x0A 0x00 0x0C).
Proof.
  intros Hc. split; [now apply configure_refines |].
  split; [| now repeat split].
  destruct (configure_summary r channel w Hc)
    as (segs & seg & Hall & Hbus & _ & _ & _ & _ & Hem).
  exists segs. split; [exact Hall |].
  rewrite Hem, bus_events_app, Hbus.
  destruct (existsb is_bus_failure seg); cbn; apply app_nil_r.
Qed.

(** C3: for a channel index, the sequences of the two rates agree step for
    step, address, value and mask, except at the line-rate write (index 4,
    address 0x2F, mask 0xF0), whose high nibble is 0x0 for 10G and 0x5 for
    25G; and each configuration function is its sequence. *)
Theorem rates_differ_in_line_rate_only channel w :
  0 <= channel < 8 ->
  configure Rate10G channel w
  = issue_and_report (configure_steps Rate10G channel) Rate10G channel w /\
  configure Rate25G channel w
  = issue_and_report (configure_steps Rate25G channel) Rate25G channel w /\
  (forall i : nat, i <> 4%nat ->
     configure_steps Rate10G channel !! i = configure_steps Rate25G channel !! i) /\
  configure_steps Rate10G channel !! 4%nat
  = Some (RegWrite 0x2F (Z.shiftl 0x0 4) 0xF0) /\
  configure_steps Rate25G channel !! 4%nat
  = Some (RegWrite 0x2F (Z.shiftl 0x5 4) 0xF0).
Proof.
  intros Hc. do 2 (split; [now apply configure_refines |]).
  split; [| now repeat split].
  intros i Hi.
  do 14 (destruct i as [| i]; [first [reflexivity | congruence] |]).
  reflexivity.
Qed.

(** C2, amended: when a transaction of the sequence fails, every step is
    still attempted, in order; the failure is in the log only (an error line,
    and no success line), and the request returns 0 to its caller. *)
Theorem configure_continues_on_error priv r w :
  0 <= channel priv < 8 ->
  existsb is_bus_failure
    (emitted (ds250dfx10_phy_set_mode priv PHY_MODE_ETHERNET (submode_of_rate r)) w)
  = true ->
  (exists segs,
     Forall2 attempt (configure_steps r (channel priv)) segs /\
     bus_events
       (emitted (ds250dfx10_phy_set_mode priv PHY_MODE_ETHERNET (submode_of_rate r)) w)
     = concat segs) /\
  existsb is_error_log
    (emitted (ds250dfx10_phy_set_mode priv PHY_MODE_ETHERNET (submode_of_rate r)) w)
  = true /\
  ~ In (DevLog KERN_INFO (rate_name r) [channel priv])
      (emitted (ds250dfx10_phy_set_mode priv PHY_MODE_ETHERNET (submode_of_rate r)) w) /\
  result (ds250dfx10_phy_set_mode priv PHY_MODE_ETHERNET (submode_of_rate r)) w = 0.
Proof.
  intros Hc. rewrite set_mode_emitted. unfold result. rewrite set_mode_dispatch.
  destruct (configure_summary r (channel priv) w Hc)
    as (segs & seg & Hall & Hbus & Hral & Hlog & _ & _ & Hem).
  rewrite Hem. intros Hfail.
  assert (Hseg : existsb is_bus_failure seg = true).
  { destruct (existsb is_bus_failure seg) eqn:E; [reflexivity |].
    rewrite existsb_app, E in Hfail. discriminate Hfail. }
  rewrite Hseg, app_nil_r. rewrite Hseg in Hlog.
  split; [now exists segs |]. split; [exact Hlog |]. split; [| reflexivity].
  intros Hin. rewrite forallb_forall in Hral. now apply Hral in Hin.
Qed.

End ConfigureClaims.

Lemma configure_issues_sequence_witness :
  0 <= 2 < 8 /\
  configure Rate25G 2 (boot (healthy ds250df410_regs))
  = issue_and_report (configure_steps Rate25G 2) Rate25G 2
      (boot (healthy ds250df410_regs)).
Proof.
  split; [lia |].
  apply (configure_issues_sequence Rate25G 2 (boot (healthy ds250df410_regs))).
  lia.
Defined.

Lemma rates_differ_in_line_rate_only_witness :
  0 <= 2 < 8 /\
  configure_steps Rate25G 2 !! 4%nat = Some (RegWrite 0x2F (Z.shiftl 0x5 4) 0xF0).
Proof.
  split; [lia |].
  apply (rates_differ_in_line_rate_only 2 (boot (healthy ds250df410_regs))).
  lia.
Defined.

(** A lane whose second transaction (the channel select) is failed by the
    bus: the request still returns 0. *)
Lemma failure_not_reported_to_caller :
  ~ failure_reported_to_caller {| channel := 2 |} Rate25G
      (boot (faulty ds250df410_regs [false; false; true])).
Proof.
  intros Hclaim. destruct Hclaim as [_ Hret]; [vm_compute; reflexivity |].
  apply Hret. vm_compute. reflexivity.
Qed.

Lemma configure_continues_on_error_witness :
  result (ds250dfx10_phy_set_mode {| channel := 2 |} PHY_MODE_ETHERNET
            (submode_of_rate Rate25G))
    (boot (faulty ds250df410_regs [false; false; true])) = 0.
Proof.
  apply (configure_continues_on_error {| channel := 2 |} Rate25G
           (boot (faulty ds250df410_regs [false; false; true]))).
  - cbn. lia.
  - reflexivity.
Defined.

(** ** Claims on the register access layer and on mode requests *)

Section AccessClaims.
Context {K : Type} `{!Kernel K} `{!PhyABI}.
Implicit Types (w : world K) (seg : list event).

(** [ds250dfx10_write_register] with the preserving read spelled out. *)
Lemma write_register_eq a v m w :
  0 <= m < 256 ->
  ds250dfx10_write_register a v m w =
  if m =? 0xFF then write_new_value a v w
  else
    let (res, k) := smbus_read_byte_data a (kernel w) in
    if res <? 0 then
      (- EIO,
       with_bus w k [SmbusRead a res;
                     DevLog KERN_ERR "failed to read register %#04x: %d\n" [a; res]])
    else
      write_new_value a (Z.lor (Z.land v m) (Z.land res (uint8 (Z.lnot m))))
        (with_bus w k [SmbusRead a res]).
Proof.
  intros Hm. unfold ds250dfx10_write_register.
  destruct (m =? 0xFF); cbn [negb]; [reflexivity |].
  unfold bind. rewrite read_register_eq.
  destruct (smbus_read_byte_data a (kernel w)) as [res k].
  destruct (res <? 0); [reflexivity |].
  now rewrite merged_byte.
Qed.

Lemma write_new_value_emitted a v w :
  exists res,
    emitted (write_new_value a v) w
    = SmbusWrite a v res
      :: (if res <? 0 then
            [DevLog KERN_ERR "failed to write register %#04x=%#04x: %d\n" [a; v; res]]
          else []).
Proof.
  unfold emitted, after. rewrite write_new_value_eq.
  destruct (smbus_write_byte_data a v (kernel w)) as [res k].
  exists res. destruct (res <? 0); cbn; now rewrite drop_app_length.
Qed.

(** C4, amended: with the full mask the bus sees one write of [v] and no
    read; with any other mask it sees one read and, when that read succeeds,
    one write after it of [(v & mask) | preserved], [preserved] being the
    read result masked with [~mask]; when the read fails the read is all the
    bus sees. *)
Theorem write_register_transactions a v m w :
  0 <= m < 256 ->
  (m = 0xFF ->
   exists res,
     bus_events (emitted (ds250dfx10_write_register a v m) w) = [SmbusWrite a v res]) /\
  (m <> 0xFF ->
   let res := (smbus_read_byte_data a (kernel w)).1 in
   if res <? 0 then
     bus_events (emitted (ds250dfx10_write_register a v m) w) = [SmbusRead a res]
   else
     exists res',
       bus_events (emitted (ds250dfx10_write_register a v m) w)
       = [SmbusRead a res;
          SmbusWrite a (Z.lor (Z.land v m) (Z.land res (uint8 (Z.lnot m)))) res']).
Proof.
  intros Hm. split; intros Hmask.
  - subst m. destruct (write_new_value_emitted a v w) as [res Hem].
    exists res. unfold emitted, after in *.
    rewrite write_register_eq by exact Hm. cbn [Z.eqb Pos.eqb].
    rewrite Hem. now destruct (res <? 0).
  - unfold emitted, after. rewrite write_register_eq by exact Hm.
    destruct (Z.eqb_spec m 0xFF) as [Heq | _]; [contradiction |].
    destruct (smbus_read_byte_data a (kernel w)) as [res k]. cbn [fst].
    destruct (res <? 0).
    + cbn. now rewrite drop_app_length.
    + rewrite write_new_value_eq. cbn [kernel with_bus].
      destruct (smbus_write_byte_data a _ k) as [res' k'].
      exists res'.
      destruct (res' <? 0); cbn; now rewrite <- app_assoc, drop_app_length.
Qed.

(** C9: with a partial mask, when the preserving read fails the call
    returns -EIO at once; the bus has seen that read and no write, and the
    oracle is where the read left it. *)
Theorem write_register_read_failure a v m w :
  0 <= m < 256 ->
  m <> 0xFF ->
  (smbus_read_byte_data a (kernel w)).1 < 0 ->
  result (ds250dfx10_write_register a v m) w = - EIO /\
  bus_events (emitted (ds250dfx10_write_register a v m) w)
  = [SmbusRead a (smbus_read_byte_data a (kernel w)).1] /\
  List.filter is_bus_write (emitted (ds250dfx10_write_register a v m) w) = [] /\
  kernel (after (ds250dfx10_write_register a v m) w)
  = (smbus_read_byte_data a (kernel w)).2.
Proof.
  intros Hm Hmask Hfail. unfold result, emitted, after.
  rewrite write_register_eq by exact Hm.
  destruct (Z.eqb_spec m 0xFF) as [Heq | _]; [contradiction |].
  destruct (smbus_read_byte_data a (kernel w)) as [res k]. cbn [fst snd] in *.
  apply Z.ltb_lt in Hfail. rewrite Hfail. cbn.
  now rewrite drop_app_length.
Qed.

(** C6: a request whose mode is not Ethernet, or whose submode is neither
    10GBASE-R nor 25GBASE-R, returns -EOPNOTSUPP; no bus transaction is made,
    and the oracle, the phy objects and the private data are as before (the
    unsupported submode leaves one error line in the log). *)
Theorem set_mode_unsupported priv mode submode w :
  mode <> PHY_MODE_ETHERNET \/
  (submode <> PHY_INTERFACE_MODE_10GBASER /\
   submode <> PHY_INTERFACE_MODE_25GBASER) ->
  result (ds250dfx10_phy_set_mode priv mode submode) w = - EOPNOTSUPP /\
  bus_events (emitted (ds250dfx10_phy_set_mode priv mode submode) w) = [] /\
  kernel (after (ds250dfx10_phy_set_mode priv mode submode) w) = kernel w /\
  phy_objs (after (ds250dfx10_phy_set_mode priv mode submode) w) = phy_objs w /\
  clientdata (after (ds250dfx10_phy_set_mode priv mode submode) w) = clientdata w /\
  emitted (ds250dfx10_phy_set_mode priv mode submode) w
  = (if mode =? PHY_MODE_ETHERNET then
       [DevLog KERN_ERR "unsupported interface submode %i\n" [submode]]
     else []).
Proof.
  intros Hreq. unfold result, emitted, after, ds250dfx10_phy_set_mode.
  destruct (Z.eqb_spec mode PHY_MODE_ETHERNET) as [Hmode | Hmode]; cbn [negb].
  - destruct Hreq as [Hne | [H10 H25]]; [contradiction |].
    destruct (Z.eqb_spec submode PHY_INTERFACE_MODE_10GBASER); [contradiction |].
    destruct (Z.eqb_spec submode PHY_INTERFACE_MODE_25GBASER); [contradiction |].
    cbn. now rewrite drop_app_length.
  - cbn. now rewrite drop_all.
Qed.

End AccessClaims.

(** The preserving read of a CDR hold is failed by the bus: one read, no
    write. *)
Lemma masked_write_read_fails :
  ~ masked_write_as_stated 0x0A 0x0C 0x0C (boot (faulty [(0x0A, 0x33)] [true])).
Proof.
  intros [_ Hclaim]. destruct Hclaim as (res & res' & Habs); [discriminate |].
  vm_compute in Habs. discriminate Habs.
Qed.

Lemma write_register_transactions_witness :
  exists res',
    bus_events (emitted (ds250dfx10_write_register 0x0A 0x0C 0x0C)
                  (boot (healthy [(0x0A, 0x33)])))
    = [SmbusRead 0x0A 0x33; SmbusWrite 0x0A 0x3F res'].
Proof.
  destruct (write_register_transactions 0x0A 0x0C 0x0C
              (boot (healthy [(0x0A, 0x33)]))) as [_ Hpartial]; [lia |].
  apply Hpartial. discriminate.
Defined.

Lemma write_register_read_failure_witness :
  result (ds250dfx10_write_register 0x0A 0x0C 0x0C)
    (boot (faulty [(0x0A, 0x33)] [true])) = - EIO.
Proof.
  apply (write_register_read_failure 0x0A 0x0C 0x0C
           (boot (faulty [(0x0A, 0x33)] [true]))).
  - lia.
  - discriminate.
  - vm_compute. reflexivity.
Defined.

Lemma set_mode_unsupported_witness :
  result (ds250dfx10_phy_set_mode {| channel := 2 |} PHY_MODE_ETHERNET 29)
    (boot (healthy ds250df410_regs)) = - EOPNOTSUPP.
Proof.
  apply (set_mode_unsupported {| channel := 2 |} PHY_MODE_ETHERNET 29
           (boot (healthy ds250df410_regs))).
  right. split; discriminate.
Defined.

(** ** Device setup, phase by phase *)

Section Setup.
Context {K : Type} `{!Kernel K} `{!PhyABI}.
Implicit Types (w : world K) (seg : list event).

Lemma alter_last {A} (f : A -> A) (l : list A) (x : A) :
  alter f (length l) (l ++ [x]) = l ++ [f x].
Proof.
  replace (length l) with (length l + 0)%nat by lia. now rewrite alter_app_r.
Qed.

(** The loop that creates the lanes: slots [i .. i+n-1] receive the new
    handles, object after object, each carrying its index; the other slots
    are not touched; a failure leaves with a negative errno. *)
Lemma probe_create_phys_spec n :
  forall (i : nat) w priv,
  clientdata w = Some priv ->
  length (phy priv) = 8%nat ->
  (i + n <= 8)%nat ->
  exists seg objs priv',
    trace (after (probe_create_phys n (Z.of_nat i)) w) = trace w ++ seg /\
    bus_events seg = [] /\
    List.filter is_provider_register seg = [] /\
    phy_objs (after (probe_create_phys n (Z.of_nat i)) w) = phy_objs w ++ objs /\
    Forall (fun o => forall d, drvdata o = Some d ->
                     0 <= channel d < Z.of_nat (i + n)) objs /\
    (length objs <= n)%nat /\
    clientdata (after (probe_create_phys n (Z.of_nat i)) w) = Some priv' /\
    length (phy priv') = 8%nat /\
    provider priv' = provider priv /\
    (forall k, (k < i)%nat -> phy priv' !! k = phy priv !! k) /\
    match result (probe_create_phys n (Z.of_nat i)) w with
    | Some e => e < 0
    | None =>
      length objs = n /\
      (forall k, (i + n <= k)%nat -> phy priv' !! k = phy priv !! k) /\
      (forall j, (j < n)%nat ->
         phy priv' !! (i + j)%nat = Some (Some (length (phy_objs w) + j)%nat) /\
         objs !! j = Some (lane_obj (Z.of_nat (i + j))))
    end.
Proof.
  induction n as [| n IH]; intros i w priv Hcd Hlen Hin.
  - exists [], [], priv. unfold after, result. cbn.
    rewrite !app_nil_r. repeat split; try done; intros; exfalso; lia.
  - unfold after, result.
    destruct (probe_create_phys (S n) (Z.of_nat i) w) as [jump w'] eqn:Hrun.
    cbn [fst snd]. cbn [probe_create_phys] in Hrun.
    unfold devm_phy_create, set_phy, modify_priv, devm_kzalloc,
      phy_set_drvdata, modify_phy_obj, dev_info, emit, ask, bind, pure in Hrun.
    cbn beta in Hrun.
    destruct (phy_create_result (kernel w)) as [e k1].
    cbn [kernel trace phy_objs clientdata] in Hrun.
    destruct (Z.ltb_spec e 0) as [He | He].
    + (* devm_phy_create failed *)
      cbn [kernel trace phy_objs clientdata] in Hrun. rewrite Hcd in Hrun.
      injection Hrun as <- <-. cbn.
      eexists [_], [], _. rewrite app_nil_r.
      repeat split; try done.
      * cbn. lia.
      * cbn. now rewrite length_insert.
      * intros k Hk. cbn. apply list_lookup_insert_ne. lia.
    + (* a new struct phy *)
      cbn [kernel trace phy_objs clientdata] in Hrun. rewrite Hcd in Hrun.
      destruct (kzalloc_succeeds k1) as [[] k2];
        cbn [negb kernel trace phy_objs clientdata] in Hrun.
      * (* the lane is set up; on to the next *)
        rewrite !alter_last in Hrun. cbn [drvdata destroyed] in Hrun.
        rewrite Nat2Z.id, uint8_small in Hrun by lia.
        replace (Z.of_nat i + 1) with (Z.of_nat (S i)) in Hrun by lia.
        match type of Hrun with
        | probe_create_phys n _ ?w1 = _ =>
          destruct (IH (S i) w1 _ eq_refl) as
            (seg & objs & priv' & Ht & Hb & Hp & Ho & Hall & Hsize & Hcd' & Hlen' & Hprov & Hlow & Hres);
            [cbn; now rewrite length_insert | lia |];
            unfold after, result in *; rewrite Hrun in *
        end.
        cbn [fst snd kernel trace phy_objs clientdata phy provider] in *.
        eexists (_ :: _ :: seg), (_ :: objs), priv'.
        split; [rewrite Ht, <- !app_assoc; reflexivity |].
        split; [exact Hb |]. split; [exact Hp |].
        split; [rewrite Ho, <- app_assoc; reflexivity |].
        split.
        { constructor.
          - cbn. intros d [= <-]. cbn. lia.
          - eapply Forall_impl; [exact Hall |]. cbn. intros o Ho' d Hd.
            specialize (Ho' d Hd). lia. }
        split; [cbn; lia |].
        split; [exact Hcd' |]. split; [exact Hlen' |]. split; [exact Hprov |].
        split.
        { intros k Hk. rewrite Hlow by lia. apply list_lookup_insert_ne. lia. }
        destruct jump as [e' |]; [exact Hres |].
        destruct Hres as (Hcount & Hhigh & Hmid).
        split; [cbn; now rewrite Hcount |]. split.
        { intros k Hk. rewrite Hhigh by lia. apply list_lookup_insert_ne. lia. }
        intros [| j] Hj.
        { rewrite !Nat.add_0_r. split; [| reflexivity].
          rewrite Hlow by lia. apply list_lookup_insert_eq. lia. }
        destruct (Hmid j ltac:(lia)) as [Hslot Hobj].
        rewrite length_app in Hslot. cbn [length] in Hslot.
        replace (i + S j)%nat with (S i + j)%nat by lia.
        replace (length (phy_objs w) + S j)%nat
          with (length (phy_objs w) + 1 + j)%nat by lia.
        split; [exact Hslot |]. cbn [lookup list_lookup]. exact Hobj.
      * (* no memory for the lane's private data *)
        injection Hrun as <- <-. cbn.
        eexists [_], [_], _.
        repeat split; try done.
        -- constructor; [| constructor]. cbn. intros d [=].
        -- cbn. lia.
        -- cbn. now rewrite length_insert.
        -- intros k Hk. cbn. apply list_lookup_insert_ne. lia.
Qed.

(** The loop under [no_provider] and in [ds250dfx10_remove]: objects are
    marked, their private data stay. *)
Lemma destroy_phys_spec slots :
  forall w,
  exists seg,
    trace (after (destroy_phys slots) w) = trace w ++ seg /\
    bus_events seg = [] /\
    List.filter is_provider_register seg = [] /\
    List.filter is_phy_create seg = [] /\
    kernel (after (destroy_phys slots) w) = kernel w /\
    clientdata (after (destroy_phys slots) w) = clientdata w /\
    drvdata <$> phy_objs (after (destroy_phys slots) w) = drvdata <$> phy_objs w.
Proof.
  induction slots as [| [p |] slots IH]; intros w.
  - exists []. unfold after. cbn. now rewrite app_nil_r.
  - specialize (IH (after (devm_phy_destroy p) w)).
    destruct IH as (seg & Ht & Hb & Hp & Hc & Hk & Hcd & Hd).
    assert (Hstep : after (destroy_phys (Some p :: slots)) w
                    = after (destroy_phys slots) (after (devm_phy_destroy p) w)).
    { unfold after. cbn [destroy_phys].
      now rewrite (bind_run _ (fun _ => destroy_phys slots) w). }
    rewrite Hstep, Ht, Hk, Hcd, Hd.
    exists (PhyDestroy p :: seg). unfold after. cbn.
    rewrite <- app_assoc. repeat split; try assumption.
    rewrite (list_fmap_alter drvdata _ id) by now apply Forall_forall.
    now apply list_alter_id.
  - exact (IH w).
Qed.

Lemma channels_of_cases id n :
  channels_of id = Some n -> n = 4 \/ n = 8.
Proof.
  unfold channels_of. destruct (id =? 12); [intros [= <-]; auto |].
  destruct (id =? 14); [intros [= <-]; auto | discriminate].
Qed.

(** The warning on an unknown device id, as an addition to the trace. *)
Lemma warn_unless (b : bool) (l : list event) k t p c :
  (if b then fun w : world K => (tt, w)
   else fun w =>
     (tt, {| kernel := kernel w; trace := trace w ++ l;
             phy_objs := phy_objs w; clientdata := clientdata w |}))
    {| kernel := k; trace := t; phy_objs := p; clientdata := c |}
  = (tt, {| kernel := k; trace := t ++ (if b then [] else l);
            phy_objs := p; clientdata := c |}).
Proof. destruct b; cbn; [now rewrite app_nil_r | reflexivity]. Qed.

Ltac probe_read Hrun r k Hr :=
  rewrite read_register_eq in Hrun; cbn [kernel] in Hrun;
  match type of Hrun with
  | context [smbus_read_byte_data ?a ?s] =>
    destruct (smbus_read_byte_data a s) as [r k]
  end;
  destruct (Z.ltb_spec r 0) as [Hr | Hr]; unfold with_bus in Hrun;
  cbn [kernel trace phy_objs clientdata] in Hrun.

Ltac probe_exit Hrun :=
  injection Hrun as <- <-; cbn [trace phy_objs clientdata];
  rewrite <- ?app_assoc, drop_app_length.

Lemma probe_cases w :
  probe_outcome w (result ds250dfx10_probe w) (after ds250dfx10_probe w)
    (emitted ds250dfx10_probe w).
Proof.
  unfold result, emitted, after.
  destruct (ds250dfx10_probe w) as [ret w'] eqn:Hrun. cbn [fst snd].
  unfold ds250dfx10_probe in Hrun.
  unfold devm_kzalloc, i2c_set_clientdata, dev_info, dev_warn, dev_err,
    devm_of_phy_provider_register, set_provider, modify_priv, emit, ask,
    bind, pure in Hrun.
  cbn beta in Hrun.
  destruct (kzalloc_succeeds (kernel w)) as [[] k0]; cbn [negb] in Hrun.
  2: { injection Hrun as <- <-. cbn. rewrite drop_all. now constructor. }
  cbn [kernel trace phy_objs clientdata] in Hrun.
  probe_read Hrun r1 k1 Hr1.
  { probe_exit Hrun. now apply probe_no_device_id. }
  probe_read Hrun r2 k2 Hr2.
  { probe_exit Hrun. now apply probe_no_version. }
  rewrite warn_unless in Hrun.
  probe_read Hrun r3 k3 Hr3.
  { probe_exit Hrun. now apply (probe_no_chan_config w r1 r2 r3). }
  change (if uint8 (Z.land r3 DS250DF410_MASK_CHAN_CONFIG_ID) =? 12 then Some 8
          else if uint8 (Z.land r3 DS250DF410_MASK_CHAN_CONFIG_ID) =? 14
               then Some 4 else None)
    with (channels_of (chan_config_id r3)) in Hrun.
  destruct (channels_of (chan_config_id r3)) as [n |] eqn:Hn.
  2: { probe_exit Hrun. now apply (probe_unknown_topology w r1 r2 r3). }
  cbn [kernel trace phy_objs clientdata] in Hrun.
  probe_read Hrun r4 k4 Hr4.
  { probe_exit Hrun. now apply (probe_no_chan_version w r1 r2 r3 n r4). }
  assert (Hn48 : n = 4 \/ n = 8) by exact (channels_of_cases _ _ Hn).
  assert (Hle : (0 + Z.to_nat n <= 8)%nat) by lia.
  match type of Hrun with
  | context [probe_create_phys _ _ ?w1] =>
    destruct (probe_create_phys_spec (Z.to_nat n) 0 w1 priv_zeroed eq_refl eq_refl Hle)
      as (seg & objs & priv' & Ht & Hb & Hp & Ho & Hall & Hsize & Hcd & Hlen & Hprov & Hlow & Hres);
    unfold after, result in *; change (Z.of_nat 0) with 0 in *;
    destruct (probe_create_phys (Z.to_nat n) 0 w1) as [jump w2]
  end.
  cbn [fst snd trace phy_objs clientdata] in *.
  destruct jump as [e |].
  - (* no_provider *)
    unfold no_provider, bind, pure in Hrun. rewrite Hcd in Hrun.
    cbn [fmap option_fmap option_map default] in Hrun.
    destruct (destroy_phys_spec (take 8 (phy priv')) w2)
      as (seg' & Ht' & Hb' & Hp' & Hc' & Hk' & Hcd' & Hd').
    unfold after in *. destruct (destroy_phys _ w2) as [[] w3].
    cbn [snd] in *. injection Hrun as <- <-.
    rewrite Ht', Ht, <- !app_assoc, drop_app_length.
    match goal with
    | |- probe_outcome _ _ _ ?l =>
      replace l with (identified r1 r2 r3 n r4 ++ (seg ++ seg'))
        by (unfold identified, ident_report; cbn [app];
            rewrite <- ?app_assoc; reflexivity)
    end.
    apply probe_lanes_failed; try assumption.
    + rewrite bus_events_app, Hb, Hb'. reflexivity.
    + rewrite List.filter_app, Hp, Hp'. reflexivity.
    + rewrite <- (length_fmap drvdata), Hd', length_fmap, Ho, length_app. lia.
    + intros d Hd. rewrite Hd', Ho, fmap_app in Hd.
      rewrite drop_app_length' in Hd by now rewrite length_fmap.
      apply list_elem_of_In, list_elem_of_fmap in Hd as (o & Hdo & Hin).
      rewrite Forall_forall in Hall. specialize (Hall o Hin d (eq_sym Hdo)). lia.
  - (* the provider *)
    destruct (provider_register_result (kernel w2)) as [e k].
    cbn [kernel trace phy_objs clientdata] in Hrun. rewrite Hcd in Hrun.
    cbn [fmap option_fmap option_map] in Hrun.
    injection Hrun as <- <-. cbn [trace phy_objs clientdata].
    destruct Hres as (Hcount & Hhigh & Hmid).
    rewrite Ht, <- !app_assoc, drop_app_length.
    match goal with
    | |- probe_outcome _ _ _ ?l =>
      replace l with (identified r1 r2 r3 n r4 ++ seg ++
                      [ProviderRegister (if e <? 0 then ERR_PTR e else PTR tt)])
        by (unfold identified, ident_report; cbn [app];
            rewrite <- ?app_assoc; reflexivity)
    end.
    apply (probe_ok w r1 r2 r3 n r4 seg (if e <? 0 then ERR_PTR e else PTR tt)
             {| phy := phy priv';
                provider := Some (if e <? 0 then ERR_PTR e else PTR tt) |});
      try assumption; try reflexivity; cbn [phy_objs phy].
    + rewrite Ho, length_app, Hcount. reflexivity.
    + intros j Hj. destruct (Hmid j Hj) as [Hslot Hobj]. split; [exact Hslot |].
      rewrite Ho, lookup_app_r by lia.
      replace (length (phy_objs w) + j - length (phy_objs w))%nat with j by lia.
      exact Hobj.
    + intros slot Hslot. rewrite Hhigh by lia.
      apply lookup_replicate_2. lia.
Qed.

End Setup.

(** ** Claims on device setup *)

Section SetupClaims.
Context {K : Type} `{!Kernel K} `{!PhyABI}.
Implicit Types (w : world K) (seg : list event).

Lemma bus_events_ident_report r1 r2 : bus_events (ident_report r1 r2) = [].
Proof. unfold ident_report. now destruct (_ =? _). Qed.

Lemma phy_create_ident_report r1 r2 :
  List.filter is_phy_create (ident_report r1 r2) = [].
Proof. unfold ident_report. now destruct (_ =? _). Qed.

Lemma provider_ident_report r1 r2 :
  List.filter is_provider_register (ident_report r1 r2) = [].
Proof. unfold ident_report. now destruct (_ =? _). Qed.

Lemma in_bus_events e l : In e l -> is_bus_event e = true -> In e (bus_events l).
Proof. intros. now apply List.filter_In. Qed.

Lemma no_bus_events_no_failure seg :
  bus_events seg = [] -> existsb is_bus_failure seg = false.
Proof.
  induction seg as [| e seg IH]; [reflexivity |]. cbn.
  destruct e; cbn; try discriminate; exact IH.
Qed.

Lemma chan_config_id_nibble res : chan_config_id res = Z.land res 0xF.
Proof.
  unfold chan_config_id. change DS250DF410_MASK_CHAN_CONFIG_ID with 0xF.
  apply Z.bits_inj'. intros n Hn.
  rewrite uint8_testbit, Z.land_spec by lia.
  destruct (Z.ltb_spec n 8); [reflexivity |].
  rewrite (byte_testbit_high 0xF n) by lia. now rewrite andb_false_r.
Qed.

Ltac fold_trace :=
  unfold identified, read_failed in *;
  rewrite ?bus_events_app, ?List.filter_app, ?existsb_app,
    ?bus_events_ident_report, ?phy_create_ident_report,
    ?provider_ident_report in *.

(** What the read of the channel-config register decides. *)
Lemma chan_config_read_decides w res :
  In (SmbusRead 0xEF res) (emitted ds250dfx10_probe w) ->
  0 <= res ->
  match channels_of (chan_config_id res) with
  | Some n => discovered n w
  | None => result ds250dfx10_probe w = - EINVAL /\ nothing_created w
  end.
Proof.
  intros Hin Hres. unfold discovered, nothing_created.
  pose proof (probe_cases w) as Hcase.
  apply in_bus_events in Hin; [| reflexivity].
  destruct Hcase; fold_trace; cbn in Hin;
    repeat match goal with
    | H : bus_events _ = [] |- _ => rewrite H in Hin
    end; cbn in Hin;
    repeat match type of Hin with
    | _ \/ _ => destruct Hin as [Hin | Hin]
    | False => destruct Hin
    | SmbusRead _ _ = SmbusRead _ _ => injection Hin as Hin; try discriminate
    end; subst.
  - exfalso; lia.
  - match goal with H : channels_of _ = _ |- _ => rewrite H end.
    split; [reflexivity |]. repeat split; try assumption.
  - match goal with H : channels_of _ = _ |- _ => rewrite H end.
    split; [rewrite !in_app_iff; right; right; cbn; auto |].
    split; [match goal with H : phy_objs _ = _ |- _ => rewrite H end; lia |].
    discriminate.
  - match goal with H : channels_of _ = _ |- _ => rewrite H end.
    split; [rewrite !in_app_iff; left; right; right; cbn; auto |].
    split; [assumption |]. intros ->. exfalso; lia.
  - match goal with H : channels_of _ = _ |- _ => rewrite H end.
    split; [rewrite !in_app_iff; left; right; right; cbn; auto |].
    split; [lia |]. intros _. split; [assumption |].
    eexists. split; [eassumption |]. split; [| assumption].
    intros j Hj. now match goal with
    | Hall : forall j, _ -> _ /\ _ |- _ => destruct (Hall j Hj)
    end.
Qed.

Lemma failure_ident_report r1 r2 :
  existsb is_bus_failure (ident_report r1 r2) = false.
Proof. unfold ident_report. now destruct (_ =? _). Qed.

(** A failed identification read ends setup with -EIO and nothing
    created. *)
Lemma setup_read_failure w :
  existsb is_bus_failure (emitted ds250dfx10_probe w) = true ->
  result ds250dfx10_probe w = - EIO /\ nothing_created w.
Proof.
  intros Hfail. unfold nothing_created.
  pose proof (probe_cases w) as Hcase.
  destruct Hcase; fold_trace; rewrite ?failure_ident_report in Hfail;
    cbn in Hfail;
    repeat match goal with
    | H : bus_events _ = [] |- _ =>
      rewrite (no_bus_events_no_failure _ H) in Hfail
    | H : 0 <= ?r |- _ => apply Z.ltb_ge in H; rewrite H in Hfail
    end; cbn in Hfail; try discriminate Hfail;
    (split; [reflexivity |]); now repeat split.
Qed.

(** C5: when setup reads the channel-config register (address 0xEF) and the
    low nibble is 0xC it finds 8 channels, when it is 0xE it finds 4; with
    any other nibble setup fails with -EINVAL (UnsupportedTopology) and no
    lane is created. *)
Theorem chan_config_decides_channel_count w res :
  In (SmbusRead 0xEF res) (emitted ds250dfx10_probe w) ->
  0 <= res ->
  (Z.land res 0xF = 0xC -> discovered 8 w) /\
  (Z.land res 0xF = 0xE -> discovered 4 w) /\
  (Z.land res 0xF <> 0xC -> Z.land res 0xF <> 0xE ->
   result ds250dfx10_probe w = - EINVAL /\ nothing_created w).
Proof.
  intros Hin Hres.
  pose proof (chan_config_read_decides w res Hin Hres) as Hdec.
  rewrite chan_config_id_nibble in Hdec. unfold channels_of in Hdec.
  destruct (Z.eqb_spec (Z.land res 0xF) 0xC) as [HC | HC].
  { split; [intros _; exact Hdec |]. split; [| contradiction].
    rewrite HC. discriminate. }
  destruct (Z.eqb_spec (Z.land res 0xF) 0xE) as [HE | HE].
  { split; [contradiction |]. split; [intros _; exact Hdec | contradiction]. }
  split; [contradiction |]. split; [contradiction |]. intros _ _. exact Hdec.
Qed.

(** C7: when an identification read (device id, version, channel-config id,
    channel version) fails on the bus, or the channel-config nibble is
    neither 0xC nor 0xE, setup returns an error, no phy object has been
    created, no provider has been registered and every slot is NULL. *)
Theorem setup_fails_atomically w :
  existsb is_bus_failure (emitted ds250dfx10_probe w) = true \/
  (exists res,
     In (SmbusRead 0xEF res) (emitted ds250dfx10_probe w) /\ 0 <= res /\
     Z.land res 0xF <> 0xC /\ Z.land res 0xF <> 0xE) ->
  result ds250dfx10_probe w < 0 /\ nothing_created w.
Proof.
  intros [Hfail | (res & Hin & Hres & HC & HE)].
  - destruct (setup_read_failure w Hfail) as [-> Hnone].
    split; [reflexivity | exact Hnone].
  - pose proof (chan_config_read_decides w res Hin Hres) as Hdec.
    rewrite chan_config_id_nibble in Hdec. unfold channels_of in Hdec.
    destruct (Z.eqb_spec (Z.land res 0xF) 0xC); [contradiction |].
    destruct (Z.eqb_spec (Z.land res 0xF) 0xE); [contradiction |].
    destruct Hdec as [-> Hnone]. split; [reflexivity | exact Hnone].
Qed.

(** The private data of the phy objects made by setup carry an index below
    the channel count setup logged. *)
Lemma setup_lane_indices w d :
  In (Some d)
     (drop (length (phy_objs w)) (drvdata <$> phy_objs (after ds250dfx10_probe w))) ->
  exists n,
    (n = 4 \/ n = 8) /\
    In (DevLog KERN_INFO "%u channels\n" [n]) (emitted ds250dfx10_probe w) /\
    0 <= channel d < n.
Proof.
  intros Hd. pose proof (probe_cases w) as Hcase.
  destruct Hcase;
    try (match goal with
         | H : phy_objs ?w' = phy_objs w |- _ =>
           rewrite H, drop_ge in Hd by (now rewrite length_fmap); destruct Hd
         end).
  - exists n. split; [eapply channels_of_cases; eassumption |].
    split; [unfold identified; rewrite !in_app_iff; left; right; right; cbn; auto |].
    auto.
  - exists n. split; [eapply channels_of_cases; eassumption |].
    split; [unfold identified; rewrite !in_app_iff; left; right; right; cbn; auto |].
    apply list_elem_of_In, list_elem_of_lookup in Hd as [j Hj].
    rewrite lookup_drop, list_lookup_fmap in Hj.
    destruct (phy_objs w' !! (length (phy_objs w) + j)%nat) as [o |] eqn:Ho;
      [| discriminate Hj].
    assert (Hlt : (j < Z.to_nat n)%nat).
    { apply lookup_lt_Some in Ho. lia. }
    match goal with
    | Hall : forall j, _ -> _ /\ _ |- _ => destruct (Hall j Hlt) as [_ Hobj]
    end.
    rewrite Ho in Hobj. injection Hobj as ->. cbn in Hj. injection Hj as <-.
    cbn. lia.
Qed.

(** A mode request leaves the phy objects and the private data alone. *)
Lemma set_mode_keeps_lanes priv mode submode w :
  0 <= channel priv < 8 ->
  phy_objs (after (ds250dfx10_phy_set_mode priv mode submode) w) = phy_objs w /\
  clientdata (after (ds250dfx10_phy_set_mode priv mode submode) w) = clientdata w.
Proof.
  intros Hc. unfold after, ds250dfx10_phy_set_mode.
  destruct (mode =? PHY_MODE_ETHERNET); cbn [negb]; [| now split].
  destruct (configure_summary Rate10G (channel priv) w Hc)
    as (_ & _ & _ & _ & _ & _ & Hp10 & Hc10 & _).
  destruct (configure_summary Rate25G (channel priv) w Hc)
    as (_ & _ & _ & _ & _ & _ & Hp25 & Hc25 & _).
  unfold after, configure in *.
  destruct (submode =? PHY_INTERFACE_MODE_10GBASER).
  { unfold bind, pure. now destruct (ds250dfx10_config_10g (channel priv) w). }
  destruct (submode =? PHY_INTERFACE_MODE_25GBASER).
  { unfold bind, pure. now destruct (ds250dfx10_config_25g (channel priv) w). }
  now split.
Qed.

(** A lookup leaves the phy objects alone. *)
Lemma of_xlate_keeps_lanes phy_priv a w :
  phy_objs (after (ds250dfx10_of_xlate phy_priv a) w) = phy_objs w.
Proof.
  unfold after, ds250dfx10_of_xlate, WARN_ON, dev_err, emit, bind, pure.
  destruct (args_count a =? 1); cbn [negb]; [| reflexivity].
  destruct (8 <=? _); [reflexivity |].
  now destruct (phy phy_priv !! _) as [[p |] |].
Qed.

(** The channel select of [configure] reaches the bus as a write of the
    one-hot byte. *)
Lemma configure_selects_channel r c w :
  0 <= c < 8 ->
  exists res, In (SmbusWrite 0xFC (2 ^ c) res) (emitted (configure r c) w).
Proof.
  intros Hc.
  destruct (configure_summary r c w Hc)
    as (segs & seg & Hall & Hbus & _ & _ & _ & _ & Hem).
  unfold configure_steps in Hall.
  inversion Hall as [| s1 seg1 l1 segs1 _ Hall1]; subst.
  inversion Hall1 as [| s2 seg2 l2 segs2 Hsel _]; subst.
  inversion Hsel as [a v res | a v m res Hm _ | a v m res res' Hm _]; subst;
    [| now destruct Hm | now destruct Hm].
  exists res. rewrite Hem. apply in_or_app. left.
  assert (Hin : In (SmbusWrite 0xFC (2 ^ c) res) (bus_events seg)).
  { rewrite Hbus. cbn [concat]. apply in_or_app. right. left.
    now rewrite Z.shiftl_1_l. }
  unfold bus_events in Hin. now apply List.filter_In in Hin.
Qed.

(** C10: a phy object made by setup carries an index below the channel count
    setup found, which is 4 or 8; a later mode request, lookup or removal does
    not change the private data of any phy object; and for such an index the
    channel-select byte [1 << index] fits the byte, has the bit [index] set
    and no other, and is what [configure] writes to 0xFC. *)
Theorem lane_index_below_channel_count w d :
  In (Some d)
     (drop (length (phy_objs w)) (drvdata <$> phy_objs (after ds250dfx10_probe w))) ->
  (exists n,
     (n = 4 \/ n = 8) /\
     In (DevLog KERN_INFO "%u channels\n" [n]) (emitted ds250dfx10_probe w) /\
     0 <= channel d < n) /\
  (forall mode submode w1,
     phy_objs (after (ds250dfx10_phy_set_mode d mode submode) w1) = phy_objs w1) /\
  (forall phy_priv a w1,
     phy_objs (after (ds250dfx10_of_xlate phy_priv a) w1) = phy_objs w1) /\
  (forall w1,
     drvdata <$> phy_objs (after ds250dfx10_remove w1) = drvdata <$> phy_objs w1) /\
  uint8 (Z.shiftl 1 (channel d)) = 2 ^ channel d /\
  (forall j, 0 <= j ->
     Z.testbit (uint8 (Z.shiftl 1 (channel d))) j = (j =? channel d)) /\
  (forall r w1,
     exists res,
       In (SmbusWrite 0xFC (uint8 (Z.shiftl 1 (channel d))) res)
          (emitted (configure r (channel d)) w1)).
Proof.
  intros Hd. destruct (setup_lane_indices w d Hd) as (n & Hn & Hlog & Hc).
  assert (Hc8 : 0 <= channel d < 8) by lia.
  split; [now exists n |].
  split; [intros mode submode w1; now apply set_mode_keeps_lanes |].
  split; [intros phy_priv a w1; apply of_xlate_keeps_lanes |].
  split.
  { intros w1. unfold ds250dfx10_remove.
    destruct (destroy_phys_spec (take 8 (default [] (phy <$> clientdata w1))) w1)
      as (seg & _ & _ & _ & _ & _ & _ & Hkeep).
    unfold after, bind, pure in *.
    now destruct (destroy_phys _ w1). }
  rewrite (one_hot _ Hc8).
  split; [reflexivity |]. split; [| intros r w1; now apply configure_selects_channel].
  intros j Hj. rewrite Z.pow2_bits_eqb by lia. apply Z.eqb_sym.
Qed.

(** What a lookup by channel index returns, for any private data. *)
Lemma of_xlate_result phy_priv index w :
  0 <= index < 2 ^ 32 ->
  result (ds250dfx10_of_xlate phy_priv (lookup_args index)) w
  = if 8 <=? index then ERR_PTR (- ENODEV)
    else match phy phy_priv !! Z.to_nat index with
         | Some (Some p) => PTR p
         | _ => ERR_PTR (- ENODEV)
         end.
Proof.
  intros Hi. unfold result, ds250dfx10_of_xlate, lookup_args.
  cbn [args_count args Z.eqb Pos.eqb negb].
  change (default 0 ([index] !! 0%nat)) with index.
  assert (Hsz : (8 <=? size_t_of_int (int_of_u32 index)) = (8 <=? index)).
  { unfold size_t_of_int, int_of_u32.
    change (2 ^ 31) with 2147483648. change (2 ^ 32) with 4294967296 in *.
    change (2 ^ 64) with 18446744073709551616.
    destruct (Z.ltb_spec index 2147483648).
    - now rewrite Z.mod_small by lia.
    - rewrite <- (Z.mod_unique (index - 4294967296) 18446744073709551616 (-1)
                    (index - 4294967296 + 18446744073709551616)) by lia.
      destruct (Z.leb_spec 8 index), (Z.leb_spec 8 (index - 4294967296 + 18446744073709551616));
        try reflexivity; lia. }
  unfold bind, WARN_ON. rewrite Hsz.
  destruct (Z.leb_spec 8 index); cbn; [reflexivity |].
  unfold int_of_u32. change (2 ^ 31) with 2147483648.
  destruct (Z.ltb_spec index 2147483648); [| lia].
  now destruct (phy phy_priv !! Z.to_nat index) as [[p |] |].
Qed.

(** C8: a lookup by channel index returns -ENODEV (NotFound) when the index
    is 8 or more or its slot is NULL, and the handle in the slot otherwise;
    after a setup that returned 0 and found [n] channels, the slot of an index
    below [n] holds the handle setup created for that index, and the slots
    from [n] on are NULL. *)
Theorem lane_lookup phy_priv index w :
  0 <= index < 2 ^ 32 ->
  result (ds250dfx10_of_xlate phy_priv (lookup_args index)) w
  = (if 8 <=? index then ERR_PTR (- ENODEV)
     else match phy phy_priv !! Z.to_nat index with
          | Some (Some p) => PTR p
          | _ => ERR_PTR (- ENODEV)
          end) /\
  (forall w0,
     result ds250dfx10_probe w0 = 0 ->
     clientdata (after ds250dfx10_probe w0) = Some phy_priv ->
     exists n,
       (n = 4 \/ n = 8) /\
       In (DevLog KERN_INFO "%u channels\n" [n]) (emitted ds250dfx10_probe w0) /\
       if index <? n then
         exists p,
           result (ds250dfx10_of_xlate phy_priv (lookup_args index)) w = PTR p /\
           phy_objs (after ds250dfx10_probe w0) !! p = Some (lane_obj index)
       else
         result (ds250dfx10_of_xlate phy_priv (lookup_args index)) w
         = ERR_PTR (- ENODEV)).
Proof.
  intros Hi. split; [now apply of_xlate_result |].
  intros w0 Hok Hcd. rewrite (of_xlate_result phy_priv index w Hi).
  pose proof (probe_cases w0) as Hcase.
  destruct Hcase; try discriminate Hok; try (exfalso; lia).
  assert (Hn : n = 4 \/ n = 8) by (eapply channels_of_cases; eassumption).
  exists n. split; [exact Hn |].
  split; [unfold identified; rewrite !in_app_iff; left; right; right; cbn; auto |].
  match goal with
  | H1 : clientdata w' = Some priv', H2 : clientdata w' = Some phy_priv |- _ =>
    rewrite H1 in H2; injection H2 as ->
  end.
  destruct (Z.ltb_spec index n) as [Hlt | Hge].
  - destruct (Z.leb_spec 8 index); [lia |].
    match goal with
    | Hall : forall j, _ -> _ /\ _ |- _ =>
      destruct (Hall (Z.to_nat index) ltac:(lia)) as [Hslot Hobj]
    end.
    rewrite Hslot. eexists. split; [reflexivity |].
    rewrite Hobj. now rewrite Z2Nat.id by lia.
  - destruct (Z.leb_spec 8 index); [reflexivity |].
    match goal with
    | Hnull : forall k, _ -> _ = Some None |- _ =>
      now rewrite (Hnull (Z.to_nat index)) by lia
    end.
Qed.

End SetupClaims.

Lemma chan_config_decides_channel_count_witness :
  discovered 8 (boot (healthy ds250df810_regs)).
Proof.
  destruct (chan_config_decides_channel_count
              (boot (healthy ds250df810_regs)) 0x0C) as [Height _].
  - vm_compute. auto 10.
  - lia.
  - apply Height. reflexivity.
Defined.

Lemma setup_fails_atomically_witness :
  nothing_created (boot (faulty ds250df410_regs [false; true])).
Proof.
  destruct (setup_fails_atomically (boot (faulty ds250df410_regs [false; true])))
    as [_ Hnone].
  - left. vm_compute. reflexivity.
  - exact Hnone.
Defined.

Lemma lane_index_below_channel_count_witness :
  uint8 (Z.shiftl 1 2) = 2 ^ 2.
Proof.
  destruct (lane_index_below_channel_count (boot (healthy ds250df410_regs))
              {| channel := 2 |}) as (_ & _ & _ & _ & Hbyte & _).
  - vm_compute. auto 10.
  - exact Hbyte.
Defined.

Lemma lane_lookup_witness :
  result (ds250dfx10_of_xlate
            {| phy := [Some 0; Some 1; Some 2; Some 3; None; None; None; None]%nat;
               provider := Some (PTR tt) |}
            (lookup_args 2))
    (boot (healthy ds250df410_regs))
  = PTR 2%nat.
Proof.
  destruct (lane_lookup
              {| phy := [Some 0; Some 1; Some 2; Some 3; None; None; None; None]%nat;
                 provider := Some (PTR tt) |}
              2 (boot (healthy ds250df410_regs))) as [Hslot _].
  - vm_compute. split; [discriminate | reflexivity].
  - exact Hslot.
Defined.

(** ** Scenarios on the simulated chip *)

(** A DS250DF410 is found with four lanes, in slots 0 to 3. *)
Example probe_ds250df410 :
  result ds250dfx10_probe (boot (healthy ds250df410_regs)) = 0 /\
  phy <$> clientdata (after ds250dfx10_probe (boot (healthy ds250df410_regs)))
  = Some [Some 0; Some 1; Some 2; Some 3; None; None; None; None]%nat /\
  drvdata <$> phy_objs (after ds250dfx10_probe (boot (healthy ds250df410_regs)))
  = [Some {| channel := 0 |}; Some {| channel := 1 |};
     Some {| channel := 2 |}; Some {| channel := 3 |}].
Proof. vm_compute. repeat split. Qed.

(** Lane 2 at 25G on a fresh chip: the channel select writes 0x04 and the
    line rate ends as 0x50. *)
Example set_mode_25g_lane_2 :
  bus_events
    (emitted (ds250dfx10_phy_set_mode {| channel := 2 |} PHY_MODE_ETHERNET
                PHY_INTERFACE_MODE_25GBASER)
       (boot (healthy ds250df410_regs)))
  = [ SmbusRead 0xFF 0; SmbusWrite 0xFF 0x01 0;
      SmbusWrite 0xFC 0x04 0;
      SmbusRead 0x00 0; SmbusWrite 0x00 0x04 0;
      SmbusRead 0x0A 0; SmbusWrite 0x0A 0x0C 0;
      SmbusRead 0x2F 0; SmbusWrite 0x2F 0x50 0;
      SmbusRead 0x3D 0; SmbusWrite 0x3D 0x80 0;
      SmbusRead 0x3D 0x80; SmbusWrite 0x3D 0x80 0;
      SmbusRead 0x3D 0x80; SmbusWrite 0x3D 0x8F 0;
      SmbusRead 0x3E 0; SmbusWrite 0x3E 0x40 0;
      SmbusRead 0x3E 0x40; SmbusWrite 0x3E 0x44 0;
      SmbusRead 0x3F 0; SmbusWrite 0x3F 0x40 0;
      SmbusRead 0x3F 0x40; SmbusWrite 0x3F 0x44 0;
      SmbusRead 0x0A 0x0C; SmbusWrite 0x0A 0x00 0 ].
Proof. vm_compute. reflexivity. Qed.

(** The same request when the bus fails the preserving read of the CDR hold:
    the hold is not written, the later steps are, and the request returns
    0. *)
Example set_mode_25g_hold_read_fails :
  let w := boot (faulty ds250df410_regs
                   [false; false; false; false; false; true]) in
  let m := ds250dfx10_phy_set_mode {| channel := 2 |} PHY_MODE_ETHERNET
             PHY_INTERFACE_MODE_25GBASER in
  result m w = 0 /\
  take 9 (bus_events (emitted m w))
  = [ SmbusRead 0xFF 0; SmbusWrite 0xFF 0x01 0;
      SmbusWrite 0xFC 0x04 0;
      SmbusRead 0x00 0; SmbusWrite 0x00 0x04 0;
      SmbusRead 0x0A (- 6);
      SmbusRead 0x2F 0; SmbusWrite 0x2F 0x50 0;
      SmbusRead 0x3D 0 ] /\
  length (bus_events (emitted m w)) = 24%nat /\
  List.filter is_error_log (emitted m w)
  = [DevLog KERN_ERR "failed to read register %#04x: %d\n" [0x0A; - 6]].
Proof. vm_compute. repeat split. Qed.

(** An unknown channel-config id (0xD) ends setup with -EINVAL. *)
Example probe_unknown_topology_0xD :
  result ds250dfx10_probe (boot (healthy [(0xF1, 0x10); (0xEF, 0x0D)])) = - EINVAL /\
  phy_objs (after ds250dfx10_probe (boot (healthy [(0xF1, 0x10); (0xEF, 0x0D)]))) = [].
Proof. vm_compute. repeat split. Qed.

(** ** Further properties of the register access layer *)

Section AccessProperties.
Context {K : Type} `{!Kernel K} `{!PhyABI}.
Implicit Types (w : world K) (seg : list event).

(** X1: a masked read is one bus read and nothing else on the bus; when the
    bus fails it the call returns -EIO, otherwise it returns what was read
    and-ed with the mask: a byte with no bit set outside the mask. *)
Theorem read_register_masks a m w :
  0 <= m < 256 ->
  bus_events (emitted (ds250dfx10_read_register a m) w)
  = [SmbusRead a (smbus_read_byte_data a (kernel w)).1] /\
  ((smbus_read_byte_data a (kernel w)).1 < 0 ->
   result (ds250dfx10_read_register a m) w = inl (- EIO)) /\
  (0 <= (smbus_read_byte_data a (kernel w)).1 ->
   result (ds250dfx10_read_register a m) w
   = inr (Z.land (smbus_read_byte_data a (kernel w)).1 m) /\
   0 <= Z.land (smbus_read_byte_data a (kernel w)).1 m < 256 /\
   forall j, 0 <= j -> Z.testbit m j = false ->
     Z.testbit (Z.land (smbus_read_byte_data a (kernel w)).1 m) j = false).
Proof.
  intros Hm. unfold result, emitted, after. rewrite read_register_eq.
  destruct (smbus_read_byte_data a (kernel w)) as [res k]. cbn [fst snd].
  assert (Hbyte : uint8 (Z.land res m) = Z.land res m).
  { apply Z.bits_inj'. intros n Hn. rewrite uint8_testbit, Z.land_spec by lia.
    destruct (Z.ltb_spec n 8); [reflexivity |].
    rewrite (byte_testbit_high m n) by lia. now rewrite andb_false_r. }
  destruct (Z.ltb_spec res 0) as [Hres | Hres]; cbn; rewrite drop_app_length.
  - split; [reflexivity |]. split; [reflexivity | lia].
  - split; [reflexivity |]. split; [lia |]. intros _.
    split; [now rewrite Hbyte |].
    split; [rewrite <- Hbyte; unfold uint8; apply Z.mod_pos_bound; lia |].
    intros j Hj Hbit. now rewrite Z.land_spec, Hbit, andb_false_r.
Qed.

(** X2: the byte a masked write puts on the bus has, at every bit position,
    the bit of [value] where the mask is set and the bit that was read where
    it is clear. *)
Theorem masked_write_merges_bits a v m w :
  0 <= m < 256 ->
  m <> 0xFF ->
  0 <= (smbus_read_byte_data a (kernel w)).1 ->
  exists b res',
    bus_events (emitted (ds250dfx10_write_register a v m) w)
    = [SmbusRead a (smbus_read_byte_data a (kernel w)).1; SmbusWrite a b res'] /\
    0 <= b < 256 /\
    forall j, 0 <= j < 8 ->
      Z.testbit b j
      = if Z.testbit m j then Z.testbit v j
        else Z.testbit (smbus_read_byte_data a (kernel w)).1 j.
Proof.
  intros Hm Hmask Hok. unfold emitted, after.
  rewrite write_register_eq by exact Hm.
  destruct (Z.eqb_spec m 0xFF) as [Heq | _]; [contradiction |].
  destruct (smbus_read_byte_data a (kernel w)) as [res k]. cbn [fst] in *.
  apply Z.ltb_ge in Hok. rewrite Hok. rewrite write_new_value_eq.
  cbn [kernel with_bus].
  destruct (smbus_write_byte_data a _ k) as [res' k'].
  eexists _, res'. split.
  { destruct (res' <? 0); cbn; now rewrite <- app_assoc, drop_app_length. }
  split.
  { rewrite <- (merged_byte v m res Hm). unfold uint8 at 1.
    apply Z.mod_pos_bound. lia. }
  intros j Hj.
  rewrite Z.lor_spec, !Z.land_spec, uint8_testbit, Z.lnot_spec by lia.
  destruct (Z.ltb_spec j 8); [| lia].
  destruct (Z.testbit m j), (Z.testbit v j), (Z.testbit res j); reflexivity.
Qed.

(** X3: a masked write returns 0 or -EIO and nothing else, whatever errno the
    bus reported: 0 when no transaction failed, -EIO, with an error line in
    the log, when one did. *)
Theorem write_register_errno a v m w :
  0 <= m < 256 ->
  (result (ds250dfx10_write_register a v m) w = 0 /\
   existsb is_bus_failure (emitted (ds250dfx10_write_register a v m) w) = false /\
   existsb is_error_log (emitted (ds250dfx10_write_register a v m) w) = false) \/
  (result (ds250dfx10_write_register a v m) w = - EIO /\
   existsb is_bus_failure (emitted (ds250dfx10_write_register a v m) w) = true /\
   existsb is_error_log (emitted (ds250dfx10_write_register a v m) w) = true).
Proof.
  intros Hm.
  destruct (write_register_summary a v m w Hm)
    as (seg & (Ht & _) & _ & Hlog & Hres).
  rewrite (emitted_of_trace _ w seg Ht), Hlog.
  destruct Hres as [[-> ->] | [-> ->]]; auto.
Qed.

(** X4: the bits of [value] outside the mask do not matter: the call with
    [value & mask] is the same run. *)
Theorem write_register_value_outside_mask a v m w :
  0 <= m < 256 ->
  0 <= v < 256 ->
  ds250dfx10_write_register a (Z.land v m) m w
  = ds250dfx10_write_register a v m w.
Proof.
  intros Hm Hv. rewrite !write_register_eq by exact Hm.
  destruct (Z.eqb_spec m 0xFF) as [-> | _].
  - change 255 with (Z.ones 8). rewrite Z.land_ones by lia.
    now rewrite Z.mod_small by (change (2 ^ 8) with 256; lia).
  - now rewrite <- Z.land_assoc, Z.land_diag.
Qed.

End AccessProperties.

Lemma read_register_masks_witness :
  result (ds250dfx10_read_register 0xEF 0x0F) (boot (healthy [(0xEF, 0x3C)]))
  = inr 0x0C.
Proof.
  destruct (read_register_masks 0xEF 0x0F (boot (healthy [(0xEF, 0x3C)])))
    as (_ & _ & Hok); [lia |].
  destruct Hok as [Hres _]; [vm_compute; discriminate |]. exact Hres.
Defined.

Lemma masked_write_merges_bits_witness :
  exists b res',
    bus_events (emitted (ds250dfx10_write_register 0x2F 0x50 0xF0)
                  (boot (healthy [(0x2F, 0x3A)])))
    = [SmbusRead 0x2F 0x3A; SmbusWrite 0x2F b res'] /\ 0 <= b < 256.
Proof.
  destruct (masked_write_merges_bits 0x2F 0x50 0xF0 (boot (healthy [(0x2F, 0x3A)])))
    as (b & res' & Hbus & Hb & _).
  - lia.
  - discriminate.
  - vm_compute. discriminate.
  - exists b, res'. split; [exact Hbus | exact Hb].
Defined.

Lemma write_register_errno_witness :
  result (ds250dfx10_write_register 0x0A 0x0C 0x0C)
    (boot (faulty [(0x0A, 0x33)] [false; true])) = - EIO.
Proof.
  destruct (write_register_errno 0x0A 0x0C 0x0C
              (boot (faulty [(0x0A, 0x33)] [false; true])))
    as [[_ [Habs _]] | [Hres _]]; [lia | | exact Hres].
  vm_compute in Habs. discriminate Habs.
Defined.

Lemma write_register_value_outside_mask_witness :
  ds250dfx10_write_register 0x3D (Z.land 0xFF 0x1F) 0x1F (boot (healthy []))
  = ds250dfx10_write_register 0x3D 0xFF 0x1F (boot (healthy [])).
Proof.
  apply (write_register_value_outside_mask 0x3D 0xFF 0x1F (boot (healthy []))); lia.
Defined.

(** ** Further properties of the configurator *)

Section ConfigureProperties.
Context {K : Type} `{!Kernel K} `{!PhyABI}.
Implicit Types (w : world K) (seg : list event).

Lemma failure_bus_events seg :
  existsb is_bus_failure (bus_events seg) = existsb is_bus_failure seg.
Proof.
  unfold bus_events. induction seg as [| e seg IH]; [reflexivity |].
  destruct e; cbn; now rewrite ?IH.
Qed.

(** One attempt: its transactions are at the step's register; there are one
    or two, two being a read and a write; a read needs a partial mask. *)
Lemma attempt_shape s seg :
  attempt s seg ->
  Forall (fun e => event_address e = Some (rw_address s)) seg /\
  (1 <= length seg)%nat /\
  (length seg <= full_traffic [s])%nat /\
  (existsb is_bus_failure seg = false -> length seg = full_traffic [s]) /\
  (forall a res, In (SmbusRead a res) seg -> rw_mask s <> 0xFF).
Proof.
  intros Hatt. unfold full_traffic.
  destruct Hatt as [a v res | a v m res Hm Hres | a v m res res' Hm Hres];
    cbn [rw_address rw_mask List.filter];
    try (destruct (Z.eqb_spec m 0xFF) as [Heq | _]; [contradiction |]);
    cbn.
  - repeat split; try lia; try (now repeat constructor).
    intros a' res' [[=] | []].
  - apply Z.ltb_lt in Hres. rewrite Hres.
    repeat split; try lia; try discriminate; try (now repeat constructor);
      intros; exact Hm.
  - repeat split; try lia; try (now repeat constructor); intros; exact Hm.
Qed.

Lemma full_traffic_cons s steps :
  full_traffic (s :: steps) = (full_traffic [s] + full_traffic steps)%nat.
Proof.
  unfold full_traffic. cbn [List.filter].
  destruct (rw_mask s =? 0xFF); cbn; lia.
Qed.

(** A sequence of attempts, summed up. *)
Lemma attempts_shape steps segs :
  Forall2 attempt steps segs ->
  Forall (fun e => exists s, In s steps /\ event_address e = Some (rw_address s))
    (concat segs) /\
  (length steps <= length (concat segs))%nat /\
  (length (concat segs) <= full_traffic steps)%nat /\
  (existsb is_bus_failure (concat segs) = false ->
   length (concat segs) = full_traffic steps) /\
  (forall a res, In (SmbusRead a res) (concat segs) ->
     exists s, In s steps /\ rw_address s = a /\ rw_mask s <> 0xFF).
Proof.
  induction 1 as [| s seg steps segs Hatt Hall IH].
  - cbn. repeat split; try constructor; try lia; try (intros a res []).
  - destruct (attempt_shape s seg Hatt) as (Haddr & Hmin & Hmax & Hfull & Hread).
    destruct IH as (IHaddr & IHmin & IHmax & IHfull & IHread).
    cbn [concat]. rewrite full_traffic_cons, length_app, existsb_app.
    split.
    { apply Forall_app. split.
      - eapply Forall_impl; [exact Haddr |]. cbn. intros e He.
        exists s. split; [now left | exact He].
      - eapply Forall_impl; [exact IHaddr |]. cbn. intros e (s' & Hin & He).
        exists s'. split; [now right | exact He]. }
    split; [cbn; lia |]. split; [lia |]. split.
    { intros Hnone. apply orb_false_elim in Hnone as [H1 H2].
      rewrite (Hfull H1), (IHfull H2). reflexivity. }
    intros a res Hin. apply in_app_or in Hin as [Hin | Hin].
    + exists s. split; [now left |]. split; [| exact (Hread a res Hin)].
      rewrite Forall_forall in Haddr. apply list_elem_of_In in Hin.
      specialize (Haddr _ Hin). cbn in Haddr. congruence.
    + destruct (IHread a res Hin) as (s' & Hin' & Ha & Hm).
      exists s'. split; [now right | now split].
Qed.

(** X5: a configuration run touches only the eight registers of the
    sequence; it makes at least 13 and at most 25 bus transactions, and 25
    when none fails; the channel select register is never read. *)
Theorem configure_traffic r channel w :
  0 <= channel < 8 ->
  Forall (fun e => exists a, event_address e = Some a /\ In a configure_registers)
    (bus_events (emitted (configure r channel) w)) /\
  (13 <= length (bus_events (emitted (configure r channel) w)) <= 25)%nat /\
  (existsb is_bus_failure (emitted (configure r channel) w) = false ->
   length (bus_events (emitted (configure r channel) w)) = 25%nat) /\
  (forall res, ~ In (SmbusRead 0xFC res) (emitted (configure r channel) w)).
Proof.
  intros Hc.
  destruct (configure_summary r channel w Hc)
    as (segs & seg & Hall & Hbus & _ & _ & _ & _ & Hem).
  assert (Hbe : bus_events (emitted (configure r channel) w) = concat segs).
  { rewrite Hem, bus_events_app, Hbus.
    destruct (existsb is_bus_failure seg); cbn; apply app_nil_r. }
  destruct (attempts_shape _ _ Hall) as (Haddr & Hmin & Hmax & Hfull & Hread).
  rewrite Hbe. split.
  { eapply Forall_impl; [exact Haddr |]. cbn. intros e (s & Hin & He).
    exists (rw_address s). split; [exact He |].
    unfold configure_steps, configure_registers in *. cbn in Hin |- *.
    intuition (subst; cbn; auto 10). }
  split; [exact (conj Hmin Hmax) |]. split.
  { intros Hnone. apply Hfull. rewrite <- Hbe, failure_bus_events. exact Hnone. }
  intros res Hin.
  assert (Hin' : In (SmbusRead 0xFC res) (concat segs)).
  { rewrite <- Hbe. now apply List.filter_In. }
  destruct (Hread _ _ Hin') as (s & Hs & Ha & Hm).
  unfold configure_steps in Hs. cbn in Hs.
  intuition (subst; cbn in *; try discriminate; try contradiction).
Qed.

(** X6: an Ethernet request for one of the two rates returns 0 whatever the
    bus did; the success line is in the log exactly when no transaction
    failed, and then it is the last entry and the log has no error line. *)
Theorem set_mode_success_line priv r w :
  0 <= channel priv < 8 ->
  result (ds250dfx10_phy_set_mode priv PHY_MODE_ETHERNET (submode_of_rate r)) w = 0 /\
  (In (DevLog KERN_INFO (rate_name r) [channel priv])
      (emitted (ds250dfx10_phy_set_mode priv PHY_MODE_ETHERNET (submode_of_rate r)) w)
   <-> existsb is_bus_failure
         (emitted (ds250dfx10_phy_set_mode priv PHY_MODE_ETHERNET (submode_of_rate r)) w)
       = false) /\
  (existsb is_bus_failure
     (emitted (ds250dfx10_phy_set_mode priv PHY_MODE_ETHERNET (submode_of_rate r)) w)
   = false ->
   last (emitted (ds250dfx10_phy_set_mode priv PHY_MODE_ETHERNET (submode_of_rate r)) w)
   = Some (DevLog KERN_INFO (rate_name r) [channel priv]) /\
   existsb is_error_log
     (emitted (ds250dfx10_phy_set_mode priv PHY_MODE_ETHERNET (submode_of_rate r)) w)
   = false).
Proof.
  intros Hc. rewrite set_mode_emitted. unfold result. rewrite set_mode_dispatch.
  split; [reflexivity |].
  destruct (configure_summary r (channel priv) w Hc)
    as (segs & seg & _ & _ & Hral & Hlog & _ & _ & Hem).
  rewrite Hem, !existsb_app.
  destruct (existsb is_bus_failure seg) eqn:Hfail; cbn.
  - rewrite app_nil_r. split; [| discriminate].
    split; [| discriminate]. intros Hin.
    rewrite forallb_forall in Hral. now apply Hral in Hin.
  - split; [split; [reflexivity |]; intros _; apply in_or_app; right; now left |].
    intros _. split; [apply last_snoc |]. now rewrite Hlog, orb_false_r.
Qed.

End ConfigureProperties.

Lemma configure_traffic_witness :
  (13 <= length (bus_events (emitted (configure Rate10G 5)
                               (boot (healthy ds250df810_regs)))) <= 25)%nat.
Proof.
  destruct (configure_traffic Rate10G 5 (boot (healthy ds250df810_regs)))
    as (_ & Hcount & _); [lia | exact Hcount].
Defined.

Lemma set_mode_success_line_witness :
  result (ds250dfx10_phy_set_mode {| channel := 1 |} PHY_MODE_ETHERNET
            (submode_of_rate Rate10G))
    (boot (healthy ds250df410_regs)) = 0.
Proof.
  destruct (set_mode_success_line {| channel := 1 |} Rate10G
              (boot (healthy ds250df410_regs))) as [Hres _];
    [cbn; lia | exact Hres].
Defined.

(** ** Further properties of lane lookup *)

Section LookupProperties.
Context {K : Type} `{!Kernel K} `{!PhyABI}.
Implicit Types (w : world K) (seg : list event).

(** The comparison with [ARRAY_SIZE] for a cell read as [int]. *)
Lemma out_of_range_test index :
  0 <= index < 2 ^ 32 ->
  (8 <=? size_t_of_int (int_of_u32 index)) = (8 <=? index).
Proof.
  intros Hi. unfold size_t_of_int, int_of_u32.
  change (2 ^ 31) with 2147483648. change (2 ^ 32) with 4294967296 in *.
  change (2 ^ 64) with 18446744073709551616.
  destruct (Z.ltb_spec index 2147483648).
  - now rewrite Z.mod_small by lia.
  - rewrite <- (Z.mod_unique (index - 4294967296) 18446744073709551616 (-1)
                  (index - 4294967296 + 18446744073709551616)) by lia.
    destruct (Z.leb_spec 8 index),
      (Z.leb_spec 8 (index - 4294967296 + 18446744073709551616));
      try reflexivity; lia.
Qed.


(** X8: a lookup by index raises the kernel warning exactly when the index,
    read as [int] and compared as [size_t], is out of the array: 8 or more,
    which includes the cells that are negative as [int]; a NULL slot raises
    none. *)
Theorem lookup_warns_out_of_range phy_priv index w :
  0 <= index < 2 ^ 32 ->
  emitted (ds250dfx10_of_xlate phy_priv (lookup_args index)) w
  = (if 8 <=? index then [WarnOn] else []).
Proof.
  intros Hi.
  unfold emitted, after, ds250dfx10_of_xlate, lookup_args, WARN_ON, emit,
    bind, pure.
  cbn [args_count args Z.eqb Pos.eqb negb].
  change (default 0 ([index] !! 0%nat)) with index.
  rewrite (out_of_range_test index Hi).
  destruct (8 <=? index); cbn.
  - now rewrite drop_app_length.
  - destruct (phy phy_priv !! _) as [[p |] |]; cbn; now rewrite drop_all.
Qed.

End LookupProperties.


Lemma lookup_warns_out_of_range_witness :
  emitted (ds250dfx10_of_xlate priv_zeroed (lookup_args 0xFFFFFFFF))
    (boot (healthy ds250df410_regs))
  = [WarnOn].
Proof.
  apply (lookup_warns_out_of_range priv_zeroed 0xFFFFFFFF
           (boot (healthy ds250df410_regs))).
  vm_compute. split; [discriminate | reflexivity].
Defined.

(** ** Further properties of device setup *)

Section SetupProperties.
Context {K : Type} `{!Kernel K} `{!PhyABI}.
Implicit Types (w : world K) (seg : list event).

Ltac bus_of_trace :=
  unfold identified, read_failed in *;
  rewrite ?bus_events_app, ?bus_events_ident_report in *;
  repeat match goal with
  | H : bus_events _ = [] |- _ => rewrite H in *
  end.

(** X9: setup only reads the chip: its bus transactions are reads of 0xF1,
    0xF0, 0xEF and 0xF3, in that order and at most once each, and a read that
    fails is the last of them. *)
Theorem probe_only_reads w :
  exists rs,
    bus_events (emitted ds250dfx10_probe w)
    = zip_with SmbusRead [0xF1; 0xF0; 0xEF; 0xF3] rs /\
    (length rs <= 4)%nat /\
    (forall i r, rs !! i = Some r -> r < 0 -> length rs = S i).
Proof.
  pose proof (probe_cases w) as Hcase.
  destruct Hcase as
    [ w' | r1 w' | r1 r2 w' | r1 r2 r3 w' | r1 r2 r3 w' | r1 r2 r3 n r4 w'
    | r1 r2 r3 n r4 e seg w' | r1 r2 r3 n r4 seg r priv' w' ];
    [ exists [] | exists [r1] | exists [r1; r2] | exists [r1; r2; r3]
    | exists [r1; r2; r3] | exists [r1; r2; r3; r4] | exists [r1; r2; r3; r4]
    | exists [r1; r2; r3; r4] ];
    bus_of_trace; (split; [reflexivity |]); (split; [cbn; lia |]);
    intros [| [| [| [| i]]]] r0 Hr0 Hneg; cbn in Hr0;
    try discriminate Hr0; injection Hr0 as <-; try reflexivity; lia.
Qed.

(** X10: without memory for the private data setup returns -ENOMEM before
    anything else happens: nothing is logged, no bus transaction is made and
    nothing is created. *)
Theorem probe_without_memory w :
  (kzalloc_succeeds (kernel w)).1 = false ->
  result ds250dfx10_probe w = - ENOMEM /\
  emitted ds250dfx10_probe w = [] /\
  phy_objs (after ds250dfx10_probe w) = phy_objs w /\
  clientdata (after ds250dfx10_probe w) = clientdata w /\
  kernel (after ds250dfx10_probe w) = (kzalloc_succeeds (kernel w)).2.
Proof.
  intros Hnull.
  assert (Hrun : ds250dfx10_probe w
                 = (- ENOMEM,
                    {| kernel := (kzalloc_succeeds (kernel w)).2; trace := trace w;
                       phy_objs := phy_objs w; clientdata := clientdata w |})).
  { unfold ds250dfx10_probe, bind at 1, devm_kzalloc, ask.
    destruct (kzalloc_succeeds (kernel w)) as [ok k]. cbn [fst snd] in *.
    now subst ok. }
  unfold result, emitted, after. rewrite Hrun. cbn. now rewrite drop_all.
Qed.

Lemma id_byte r : uint8 (Z.land r 0xFF) = Z.land r 0xFF.
Proof.
  apply Z.bits_inj'. intros n Hn. rewrite uint8_testbit, Z.land_spec by lia.
  destruct (Z.ltb_spec n 8); [reflexivity |].
  rewrite (byte_testbit_high 0xFF n) by lia. now rewrite andb_false_r.
Qed.

(** X11: a device id other than 0x10 is not fatal: once the id and the
    version are read, setup logs the warning and goes on to read the
    channel-config register. *)
Theorem probe_unknown_device_id w r1 r2 :
  In (SmbusRead 0xF1 r1) (emitted ds250dfx10_probe w) ->
  In (SmbusRead 0xF0 r2) (emitted ds250dfx10_probe w) ->
  0 <= r1 -> 0 <= r2 ->
  Z.land r1 0xFF <> 0x10 ->
  In unknown_id_warning (emitted ds250dfx10_probe w) /\
  exists r3, In (SmbusRead 0xEF r3) (emitted ds250dfx10_probe w).
Proof.
  intros Hid Hver Hr1 Hr2 Hunknown.
  apply in_bus_events in Hid; [| reflexivity].
  apply in_bus_events in Hver; [| reflexivity].
  assert (Hwarn : forall x y, x = r1 -> In unknown_id_warning (ident_report x y)).
  { intros x y ->. unfold ident_report. rewrite id_byte.
    destruct (Z.eqb_spec (Z.land r1 0xFF) 0x10); [contradiction |].
    right. now left. }
  pose proof (probe_cases w) as Hcase.
  destruct Hcase; bus_of_trace; cbn in Hid, Hver;
    repeat match goal with
    | H : _ \/ _ |- _ => destruct H as [H | H]
    | H : False |- _ => destruct H
    | H : SmbusRead _ _ = SmbusRead _ _ |- _ => injection H as H; try discriminate
    end; subst; try lia;
    (split;
     [ rewrite ?in_app_iff; auto 10 using Hwarn
     | eexists; rewrite ?in_app_iff; cbn; auto 12 ]).
Qed.

(** X12: the result of registering the provider is not looked at: once the
    provider registration is reached setup returns 0 and stores what the
    registration returned, an error pointer included. *)
Theorem probe_ignores_provider_result w r :
  In (ProviderRegister r) (emitted ds250dfx10_probe w) ->
  result ds250dfx10_probe w = 0 /\
  provider <$> clientdata (after ds250dfx10_probe w) = Some (Some r).
Proof.
  intros Hin.
  assert (Hf : In (ProviderRegister r)
                 (List.filter is_provider_register (emitted ds250dfx10_probe w))).
  { now apply List.filter_In. }
  clear Hin. pose proof (probe_cases w) as Hcase.
  destruct Hcase; unfold identified, read_failed in Hf;
    rewrite ?List.filter_app, ?provider_ident_report in Hf;
    repeat match goal with
    | H : List.filter is_provider_register _ = [] |- _ => rewrite H in Hf
    end; cbn in Hf; try (now destruct Hf).
  destruct Hf as [[= ->] | []]. split; [reflexivity |].
  match goal with
  | H1 : clientdata _ = Some _, H2 : provider _ = Some _ |- _ =>
    rewrite H1; cbn; now rewrite H2
  end.
Qed.

(** X13: setup, lookup and mode request together: after a setup that
    returned 0, the handle a lookup by index returns is a phy object whose
    private data carry that index, the index is below 8, and a mode request
    on it writes the one-hot byte of the index to the channel select
    register. *)
Theorem probe_lookup_set_mode w0 phy_priv index w1 p r w2 :
  result ds250dfx10_probe w0 = 0 ->
  clientdata (after ds250dfx10_probe w0) = Some phy_priv ->
  0 <= index < 2 ^ 32 ->
  result (ds250dfx10_of_xlate phy_priv (lookup_args index)) w1 = PTR p ->
  exists o d,
    phy_objs (after ds250dfx10_probe w0) !! p = Some o /\
    drvdata o = Some d /\
    destroyed o = false /\
    channel d = index /\
    index < 8 /\
    exists res,
      In (SmbusWrite 0xFC (2 ^ index) res)
         (emitted (ds250dfx10_phy_set_mode d PHY_MODE_ETHERNET (submode_of_rate r)) w2).
Proof.
  intros Hok Hcd Hi Hptr. rewrite (of_xlate_result phy_priv index w1 Hi) in Hptr.
  destruct (Z.leb_spec 8 index); [discriminate Hptr |].
  pose proof (probe_cases w0) as Hcase.
  destruct Hcase; try discriminate Hok; try (exfalso; lia).
  assert (Hn : n = 4 \/ n = 8) by (eapply channels_of_cases; eassumption).
  match goal with
  | H1 : clientdata w' = Some priv', H2 : clientdata w' = Some phy_priv |- _ =>
    rewrite H1 in H2; injection H2 as ->
  end.
  destruct (Z.ltb_spec index n) as [Hlt | Hge].
  - match goal with
    | Hall : forall j, _ -> _ /\ _ |- _ =>
      destruct (Hall (Z.to_nat index) ltac:(lia)) as [Hslot Hobj]
    end.
    rewrite Hslot in Hptr. injection Hptr as <-.
    rewrite Z2Nat.id in Hobj by lia.
    exists (lane_obj index), {| channel := index |}.
    split; [exact Hobj |]. do 3 (split; [reflexivity |]). split; [lia |].
    rewrite set_mode_emitted. cbn [channel].
    apply configure_selects_channel. lia.
  - match goal with
    | Hnull : forall k, _ -> _ = Some None |- _ =>
      rewrite (Hnull (Z.to_nat index)) in Hptr by lia
    end.
    discriminate Hptr.
Qed.

End SetupProperties.

Lemma probe_without_memory_witness :
  result ds250dfx10_probe
    (boot {| regs := ds250df410_regs; bus_faults := [];
             alloc_faults := [true]; phy_faults := [] |})
  = - ENOMEM.
Proof.
  destruct (probe_without_memory
              (boot {| regs := ds250df410_regs; bus_faults := [];
                       alloc_faults := [true]; phy_faults := [] |}))
    as [Hres _]; [reflexivity | exact Hres].
Defined.

Lemma probe_unknown_device_id_witness :
  In unknown_id_warning
     (emitted ds250dfx10_probe
        (boot (healthy [(0xF1, 0x11); (0xF0, 0x02); (0xEF, 0x0E)]))).
Proof.
  destruct (probe_unknown_device_id
              (boot (healthy [(0xF1, 0x11); (0xF0, 0x02); (0xEF, 0x0E)]))
              0x11 0x02) as [Hwarn _].
  - vm_compute. auto.
  - vm_compute. auto.
  - lia.
  - lia.
  - discriminate.
  - exact Hwarn.
Defined.

Lemma probe_ignores_provider_result_witness :
  result ds250dfx10_probe (boot (healthy ds250df410_regs)) = 0.
Proof.
  destruct (probe_ignores_provider_result (boot (healthy ds250df410_regs)) (PTR tt))
    as [Hres _]; [vm_compute; auto 20 | exact Hres].
Defined.

Lemma probe_lookup_set_mode_witness :
  exists o d,
    phy_objs (after ds250dfx10_probe (boot (healthy ds250df410_regs))) !! 2%nat
    = Some o /\
    drvdata o = Some d /\ destroyed o = false /\ channel d = 2.
Proof.
  destruct (probe_lookup_set_mode (boot (healthy ds250df410_regs))
              {| phy := [Some 0; Some 1; Some 2; Some 3; None; None; None; None]%nat;
                 provider := Some (PTR tt) |}
              2 (boot (healthy ds250df410_regs)) 2%nat Rate25G
              (boot (healthy ds250df410_regs)))
    as (o & d & Hobj & Hd & Hlive & Hc & _).
  - reflexivity.
  - reflexivity.
  - vm_compute. split; [discriminate | reflexivity].
  - reflexivity.
  - exists o, d. auto.
Defined.

(** ** Tearing lanes down *)

Section Teardown.
Context {K : Type} `{!Kernel K} `{!PhyABI}.
Implicit Types (w : world K) (seg : list event).

Lemma mark_destroyed_twice o : mark_destroyed (mark_destroyed o) = mark_destroyed o.
Proof. reflexivity. Qed.

(** The destroy loop: one [devm_phy_destroy] per handle in the slots, in slot
    order; an object is marked when its handle is in a slot and is otherwise
    as before. *)
Lemma destroy_phys_marks slots :
  forall w,
  trace (after (destroy_phys slots) w) = trace w ++ (PhyDestroy <$> handles slots) /\
  kernel (after (destroy_phys slots) w) = kernel w /\
  clientdata (after (destroy_phys slots) w) = clientdata w /\
  forall h,
    phy_objs (after (destroy_phys slots) w) !! h
    = (fun o => if bool_decide (h ∈ handles slots) then mark_destroyed o else o)
        <$> phy_objs w !! h.
Proof.
  induction slots as [| [p |] slots IH]; intros w.
  - unfold after. cbn. rewrite app_nil_r. repeat split.
    intros h. now destruct (phy_objs w !! h).
  - specialize (IH (after (devm_phy_destroy p) w)).
    destruct IH as (Ht & Hk & Hcd & Hobjs).
    assert (Hstep : after (destroy_phys (Some p :: slots)) w
                    = after (destroy_phys slots) (after (devm_phy_destroy p) w)).
    { unfold after. cbn [destroy_phys].
      now rewrite (bind_run _ (fun _ => destroy_phys slots) w). }
    rewrite Hstep, Ht, Hk, Hcd. unfold after at 1 2 3. cbn.
    rewrite <- app_assoc. repeat split.
    intros h. rewrite Hobjs. unfold after. cbn.
    change (fun o : phy_obj => {| drvdata := drvdata o; destroyed := true |})
      with mark_destroyed.
    destruct (decide (p = h)) as [-> | Hne].
    + rewrite list_lookup_alter_eq.
      rewrite (bool_decide_eq_true_2 (h ∈ h :: handles slots))
        by apply list_elem_of_here.
      destruct (phy_objs w !! h) as [o |]; [| reflexivity]. cbn.
      now case_bool_decide.
    + rewrite list_lookup_alter_ne by exact Hne.
      destruct (phy_objs w !! h) as [o |]; [| reflexivity]. cbn.
      unfold handles in *. cbn [omap list_omap id] in *.
      repeat case_bool_decide; try reflexivity; exfalso;
        match goal with
        | H : _ ∉ _ :: _ |- _ => apply not_elem_of_cons in H as [_ H]
        | H : _ ∈ _ :: _ |- _ => apply elem_of_cons in H as [H | H]
        end; first [contradiction | congruence].
  - exact (IH w).
Qed.

Lemma handles_lanes base n k :
  handles ((Some <$> seq base n) ++ replicate k None) = seq base n.
Proof.
  unfold handles. rewrite omap_app.
  replace (omap id (replicate k (@None nat))) with (@nil nat)
    by (induction k; [reflexivity | assumption]).
  rewrite app_nil_r. generalize (seq base n). intros l.
  induction l as [| x l IH]; [reflexivity |]. cbn. now rewrite IH.
Qed.

(** The slots after a setup that found [n] channels. *)
Lemma slots_after_setup (slots : list (option nat)) base n :
  length slots = 8%nat -> (n <= 8)%nat ->
  (forall j, (j < n)%nat -> slots !! j = Some (Some (base + j)%nat)) ->
  (forall k, (n <= k < 8)%nat -> slots !! k = Some None) ->
  slots = (Some <$> seq base n) ++ replicate (8 - n) None.
Proof.
  intros Hlen Hn Hlanes Hnull. apply list_eq. intros i.
  destruct (Nat.lt_ge_cases i n) as [Hi | Hi].
  - rewrite lookup_app_l by (rewrite length_fmap, length_seq; lia).
    rewrite list_lookup_fmap, lookup_seq_lt by lia. now apply Hlanes.
  - rewrite lookup_app_r by (rewrite length_fmap, length_seq; lia).
    rewrite length_fmap, length_seq.
    destruct (Nat.lt_ge_cases i 8) as [Hi8 | Hi8].
    + rewrite lookup_replicate_2 by lia. apply Hnull. lia.
    + rewrite (proj1 (lookup_replicate_None _ _ _)) by lia.
      apply lookup_ge_None. lia.
Qed.

(** X14: removal after a setup that returned 0 returns 0, makes no bus
    transaction, destroys the lanes setup created, each once and in index
    order, and changes no other phy object; the private data of the lanes
    stay. *)
Theorem probe_then_remove w :
  result ds250dfx10_probe w = 0 ->
  exists n,
    (n = 4 \/ n = 8) /\
    result ds250dfx10_remove (after ds250dfx10_probe w) = 0 /\
    emitted ds250dfx10_remove (after ds250dfx10_probe w)
    = PhyDestroy <$> seq (length (phy_objs w)) (Z.to_nat n) /\
    (forall j, (j < Z.to_nat n)%nat ->
       phy_objs (after ds250dfx10_remove (after ds250dfx10_probe w))
         !! (length (phy_objs w) + j)%nat
       = Some (mark_destroyed (lane_obj (Z.of_nat j)))) /\
    (forall h, (h < length (phy_objs w))%nat ->
       phy_objs (after ds250dfx10_remove (after ds250dfx10_probe w)) !! h
       = phy_objs (after ds250dfx10_probe w) !! h).
Proof.
  intros Hok. pose proof (probe_cases w) as Hcase.
  destruct Hcase as
    [ | | | | | | | r1 r2 r3 n r4 seg r priv' w' _ _ _ _ Hn _ _ Hcd _ Hlen Hsize
                     Hlanes Hnull ];
    try discriminate Hok; try (exfalso; lia).
  assert (Hn48 : n = 4 \/ n = 8) by exact (channels_of_cases _ _ Hn).
  exists n. split; [exact Hn48 |].
  assert (Hslots : phy priv'
                   = (Some <$> seq (length (phy_objs w)) (Z.to_nat n))
                     ++ replicate (8 - Z.to_nat n) None).
  { apply slots_after_setup; [exact Hlen | lia | | exact Hnull].
    intros j Hj. now destruct (Hlanes j Hj). }
  assert (Hh : handles (take 8 (phy priv'))
               = seq (length (phy_objs w)) (Z.to_nat n)).
  { rewrite take_ge by lia. rewrite Hslots. apply handles_lanes. }
  destruct (destroy_phys_marks (take 8 (phy priv')) w')
    as (Ht & _ & _ & Hobjs).
  rewrite Hh in Ht.
  assert (Hrun : ds250dfx10_remove w'
                 = (0, after (destroy_phys (take 8 (phy priv'))) w')).
  { unfold ds250dfx10_remove, after, bind, pure. rewrite Hcd. cbn.
    now destruct (destroy_phys _ w'). }
  assert (Hafter : after ds250dfx10_remove w'
                   = after (destroy_phys (take 8 (phy priv'))) w')
    by (unfold after at 1; now rewrite Hrun).
  unfold result, emitted. rewrite Hafter, Hrun. cbn [fst snd].
  split; [reflexivity |]. split; [now rewrite Ht, drop_app_length |]. split.
  - intros j Hj. rewrite Hobjs. destruct (Hlanes j Hj) as [_ ->]. cbn.
    rewrite bool_decide_eq_true_2; [reflexivity |]. rewrite Hh.
    apply list_elem_of_lookup. exists j. apply lookup_seq_lt. exact Hj.
  - intros h Hlow. rewrite Hobjs.
    destruct (phy_objs w' !! h) as [o |]; [| reflexivity]. cbn.
    rewrite bool_decide_eq_false_2; [reflexivity |]. rewrite Hh.
    intros Hin. apply list_elem_of_lookup in Hin as [j Hj].
    apply lookup_seq in Hj. lia.
Qed.

End Teardown.

Lemma probe_then_remove_witness :
  result ds250dfx10_remove
    (after ds250dfx10_probe (boot (healthy ds250df810_regs))) = 0.
Proof.
  destruct (probe_then_remove (boot (healthy ds250df810_regs)))
    as (n & _ & Hres & _); [reflexivity | exact Hres].
Defined.

(** ** Setup that fails while creating lanes *)

Section LaneFailure.
Context {K : Type} `{!Kernel K} `{!PhyABI}.
Implicit Types (w : world K) (seg : list event).

(** The loop that creates the lanes, slot by slot: however it ends, the phy
    objects it created are live, their handles are in the slots from [i] on,
    in order, and a slot beyond them is as before or NULL. *)
Lemma probe_create_phys_slots n :
  forall (i : nat) w priv,
  clientdata w = Some priv ->
  length (phy priv) = 8%nat ->
  (i + n <= 8)%nat ->
  exists objs priv',
    phy_objs (after (probe_create_phys n (Z.of_nat i)) w) = phy_objs w ++ objs /\
    clientdata (after (probe_create_phys n (Z.of_nat i)) w) = Some priv' /\
    length (phy priv') = 8%nat /\
    (forall j, (j < length objs)%nat ->
       phy priv' !! (i + j)%nat = Some (Some (length (phy_objs w) + j)%nat)) /\
    (forall k, (k < i)%nat -> phy priv' !! k = phy priv !! k) /\
    (forall k, (i + length objs <= k)%nat ->
       phy priv' !! k = phy priv !! k \/ phy priv' !! k = Some None).
Proof.
  induction n as [| n IH]; intros i w priv Hcd Hlen Hin.
  - exists [], priv. unfold after. cbn. rewrite app_nil_r.
    repeat split; auto. intros; exfalso; lia.
  - unfold after.
    destruct (probe_create_phys (S n) (Z.of_nat i) w) as [jump w'] eqn:Hrun.
    cbn [fst snd]. cbn [probe_create_phys] in Hrun.
    unfold devm_phy_create, set_phy, modify_priv, devm_kzalloc,
      phy_set_drvdata, modify_phy_obj, dev_info, emit, ask, bind, pure in Hrun.
    cbn beta in Hrun.
    destruct (phy_create_result (kernel w)) as [e k1].
    cbn [kernel trace phy_objs clientdata] in Hrun.
    destruct (Z.ltb_spec e 0) as [He | He].
    + cbn [kernel trace phy_objs clientdata] in Hrun. rewrite Hcd in Hrun.
      injection Hrun as <- <-. cbn. rewrite Nat2Z.id.
      eexists [], _. rewrite app_nil_r. split; [reflexivity |].
      split; [reflexivity |]. cbn.
      split; [now rewrite length_insert |].
      split; [intros; exfalso; lia |].
      split; [intros k Hk; apply list_lookup_insert_ne; lia |].
      intros k Hk. destruct (decide (k = i)) as [-> | Hne].
      * right. apply list_lookup_insert_eq. lia.
      * left. apply list_lookup_insert_ne. lia.
    + cbn [kernel trace phy_objs clientdata] in Hrun. rewrite Hcd in Hrun.
      destruct (kzalloc_succeeds k1) as [[] k2];
        cbn [negb kernel trace phy_objs clientdata] in Hrun.
      * rewrite !alter_last in Hrun. cbn [drvdata destroyed] in Hrun.
        rewrite Nat2Z.id in Hrun.
        replace (Z.of_nat i + 1) with (Z.of_nat (S i)) in Hrun by lia.
        match type of Hrun with
        | probe_create_phys n _ ?w1 = _ =>
          destruct (IH (S i) w1 _ eq_refl) as
            (objs & priv' & Ho & Hcd' & Hlen' & Hmid & Hlow & Hhigh);
            [cbn; now rewrite length_insert | lia |];
            unfold after in *; rewrite Hrun in *
        end.
        cbn [fst snd kernel trace phy_objs clientdata phy provider] in *.
        rewrite length_app in Hmid. cbn [length] in Hmid.
        eexists (_ :: objs), priv'.
        split; [rewrite Ho, <- app_assoc; reflexivity |].
        split; [exact Hcd' |]. split; [exact Hlen' |]. split.
        { intros [| j] Hj; cbn [length] in Hj.
          - rewrite !Nat.add_0_r, Hlow by lia. apply list_lookup_insert_eq. lia.
          - replace (i + S j)%nat with (S i + j)%nat by lia.
            replace (length (phy_objs w) + S j)%nat
              with (length (phy_objs w) + 1 + j)%nat by lia.
            apply Hmid. lia. }
        split; [intros k Hk; rewrite Hlow by lia; apply list_lookup_insert_ne; lia |].
        intros k Hk. cbn [length] in Hk.
        destruct (Hhigh k ltac:(lia)) as [Hsame | Hnull]; [| now right].
        left. rewrite Hsame. apply list_lookup_insert_ne. lia.
      * injection Hrun as <- <-. cbn. rewrite Nat2Z.id.
        eexists [_], _. split; [reflexivity |]. split; [reflexivity |]. cbn.
        split; [now rewrite length_insert |]. split.
        { intros [| j] Hj; [| exfalso; lia].
          rewrite !Nat.add_0_r. apply list_lookup_insert_eq. lia. }
        split; [intros k Hk; apply list_lookup_insert_ne; lia |].
        intros k Hk. left. apply list_lookup_insert_ne. lia.
Qed.

Ltac lanes_read Hrun r k Hr :=
  rewrite read_register_eq in Hrun; cbn [kernel] in Hrun;
  match type of Hrun with
  | context [smbus_read_byte_data ?a ?s] =>
    destruct (smbus_read_byte_data a s) as [r k]
  end;
  destruct (Z.ltb_spec r 0) as [Hr | Hr]; unfold with_bus in Hrun;
  cbn [kernel trace phy_objs clientdata] in Hrun.

(** Setup either ends before it creates anything, or it is the creation of
    lanes for 4 or 8 channels from a world with the phy objects it started
    with and all slots NULL. *)
Lemma probe_reaches_lanes w :
  phy_objs (after ds250dfx10_probe w) = phy_objs w /\ result ds250dfx10_probe w <> 0 \/
  exists w1 n,
    (n = 4 \/ n = 8) /\
    phy_objs w1 = phy_objs w /\
    clientdata w1 = Some priv_zeroed /\
    ds250dfx10_probe w = probe_lanes n w1.
Proof.
  unfold result, after.
  destruct (ds250dfx10_probe w) as [ret w'] eqn:Hrun. cbn [fst snd].
  unfold ds250dfx10_probe in Hrun.
  unfold devm_kzalloc, i2c_set_clientdata, dev_info, dev_warn, dev_err,
    devm_of_phy_provider_register, set_provider, modify_priv, emit, ask,
    bind, pure in Hrun.
  cbn beta in Hrun.
  destruct (kzalloc_succeeds (kernel w)) as [[] k0]; cbn [negb] in Hrun.
  2: { injection Hrun as <- <-. left. now split. }
  cbn [kernel trace phy_objs clientdata] in Hrun.
  lanes_read Hrun r1 k1 Hr1.
  { injection Hrun as <- <-. left. now split. }
  lanes_read Hrun r2 k2 Hr2.
  { injection Hrun as <- <-. left. now split. }
  rewrite warn_unless in Hrun.
  lanes_read Hrun r3 k3 Hr3.
  { injection Hrun as <- <-. left. now split. }
  change (if uint8 (Z.land r3 DS250DF410_MASK_CHAN_CONFIG_ID) =? 12 then Some 8
          else if uint8 (Z.land r3 DS250DF410_MASK_CHAN_CONFIG_ID) =? 14
               then Some 4 else None)
    with (channels_of (chan_config_id r3)) in Hrun.
  destruct (channels_of (chan_config_id r3)) as [n |] eqn:Hn.
  2: { injection Hrun as <- <-. left. now split. }
  cbn [kernel trace phy_objs clientdata] in Hrun.
  lanes_read Hrun r4 k4 Hr4.
  { injection Hrun as <- <-. left. now split. }
  right.
  match type of Hrun with
  | context [probe_create_phys _ _ ?w1] => exists w1, n
  end.
  split; [exact (channels_of_cases _ _ Hn) |].
  split; [reflexivity |]. split; [reflexivity |].
  symmetry. exact Hrun.
Qed.

(** X15: when setup returns an error, every phy object it created has been
    destroyed, and the phy objects that were there before are as they
    were. *)
Theorem probe_failure_destroys_lanes w :
  result ds250dfx10_probe w <> 0 ->
  (forall h o,
     (length (phy_objs w) <= h)%nat ->
     phy_objs (after ds250dfx10_probe w) !! h = Some o ->
     destroyed o = true) /\
  (forall h,
     (h < length (phy_objs w))%nat ->
     phy_objs (after ds250dfx10_probe w) !! h = phy_objs w !! h).
Proof.
  intros Hfail.
  destruct (probe_reaches_lanes w) as [[Hsame _] | (w1 & n & Hn & Hobjs1 & Hcd1 & Hrun)].
  { rewrite Hsame. split; [| reflexivity].
    intros h o Hh Ho. apply lookup_lt_Some in Ho. lia. }
  unfold result, after in *. rewrite Hrun in *. unfold probe_lanes in *.
  rewrite bind_run in *.
  destruct (probe_create_phys_slots (Z.to_nat n) 0 w1 priv_zeroed Hcd1 eq_refl
              ltac:(lia))
    as (objs & priv' & Ho & Hcd & Hlen & Hmid & _ & Hhigh).
  change (Z.of_nat 0) with 0 in *.
  destruct (result (probe_create_phys (Z.to_nat n) 0) w1) as [e |].
  2: { exfalso. apply Hfail.
       unfold devm_of_phy_provider_register, set_provider, modify_priv, emit,
         ask, bind, pure.
       match goal with
       | |- context [provider_register_result ?k] =>
         now destruct (provider_register_result k)
       end. }
  set (w2 := after (probe_create_phys (Z.to_nat n) 0) w1) in *.
  destruct (destroy_phys_marks (take 8 (phy priv')) w2) as (_ & _ & _ & Hmarks).
  assert (Hend : (no_provider e w2).2
                 = after (destroy_phys (take 8 (phy priv'))) w2).
  { unfold no_provider, after, bind, pure. rewrite Hcd. cbn.
    now destruct (destroy_phys _ w2). }
  rewrite Hend. rewrite take_ge in * by lia. rewrite Hobjs1 in *.
  split.
  - intros h o Hh Hobj. rewrite Hmarks, Ho in Hobj.
    destruct ((phy_objs w ++ objs) !! h) as [o' |] eqn:Ho'; [| discriminate Hobj].
    cbn in Hobj. injection Hobj as <-.
    assert (Hj : (h - length (phy_objs w) < length objs)%nat).
    { apply lookup_lt_Some in Ho'. rewrite length_app in Ho'. lia. }
    rewrite bool_decide_eq_true_2; [reflexivity |].
    apply list_elem_of_omap. exists (Some h). split; [| reflexivity].
    apply list_elem_of_lookup. exists (h - length (phy_objs w))%nat.
    pose proof (Hmid _ Hj) as Hslot. cbn [Nat.add] in Hslot.
    rewrite Hslot. do 2 f_equal. lia.
  - intros h Hh. rewrite Hmarks, Ho, lookup_app_l by exact Hh.
    destruct (phy_objs w !! h) as [o |]; [| reflexivity]. cbn.
    rewrite bool_decide_eq_false_2; [reflexivity |].
    intros Hin. apply list_elem_of_omap in Hin as (x & Hx & Hid).
    cbn in Hid. subst x. apply list_elem_of_lookup in Hx as [k Hk].
    destruct (Nat.lt_ge_cases k (length objs)) as [Hlt | Hge].
    + pose proof (Hmid k Hlt) as Hslot. cbn [Nat.add] in Hslot.
      rewrite Hslot in Hk. injection Hk as Hk. lia.
    + destruct (Hhigh k ltac:(lia)) as [Hzero | Hnull].
      * rewrite Hzero in Hk. unfold priv_zeroed in Hk. cbn [phy] in Hk.
        apply lookup_replicate in Hk as [Hk _]. discriminate Hk.
      * rewrite Hnull in Hk. discriminate Hk.
Qed.

End LaneFailure.

Lemma probe_failure_destroys_lanes_witness :
  exists o,
    phy_objs (after ds250dfx10_probe
                (boot {| regs := ds250df810_regs; bus_faults := [];
                         alloc_faults := []; phy_faults := [false; false; true] |}))
      !! 1%nat = Some o /\
    destroyed o = true.
Proof.
  destruct (probe_failure_destroys_lanes
              (boot {| regs := ds250df810_regs; bus_faults := [];
                       alloc_faults := []; phy_faults := [false; false; true] |}))
    as [Hdead _]; [vm_compute; discriminate |].
  eexists. split; [vm_compute; reflexivity |].
  apply (Hdead 1%nat); [cbn; lia | vm_compute; reflexivity].
Defined.

(** ** What a run of the sequence writes *)

Section WrittenBytes.
Context {K : Type} `{!Kernel K} `{!PhyABI}.
Implicit Types (w : world K) (seg : list event).

(** In a sequence of attempts a read that succeeds is followed by the write
    of the merged byte of its step. *)
Lemma attempts_reads steps segs :
  Forall2 attempt steps segs ->
  forall a res,
    In (SmbusRead a res) (concat segs) -> 0 <= res ->
    exists s res',
      In s steps /\ rw_address s = a /\ rw_mask s <> 0xFF /\
      In (SmbusWrite a
            (Z.lor (Z.land (rw_value s) (rw_mask s))
                   (Z.land res (uint8 (Z.lnot (rw_mask s))))) res')
         (concat segs).
Proof.
  induction 1 as [| s seg steps segs Hatt Hall IH]; intros a0 res0 Hin Hok.
  - destruct Hin.
  - cbn [concat] in *. apply in_app_or in Hin as [Hin | Hin].
    + destruct Hatt as [a v res | a v m res Hm Hres | a v m res res' Hm Hres];
        cbn in Hin.
      * destruct Hin as [[=] | []].
      * destruct Hin as [[= <- <-] | []]. lia.
      * destruct Hin as [[= <- <-] | [[=] | []]].
        exists (RegWrite a v m), res'. cbn.
        split; [now left |]. split; [reflexivity |]. split; [exact Hm |].
        right. now left.
    + destruct (IH a0 res0 Hin Hok) as (s' & res' & Hs & Ha & Hm & Hw).
      exists s', res'. split; [now right |]. split; [exact Ha |].
      split; [exact Hm |]. apply in_or_app. now right.
Qed.

(** In a sequence of attempts a write carries the value of a full-mask step
    or a merged byte of a partial-mask step at its register. *)
Lemma attempts_writes steps segs :
  Forall2 attempt steps segs ->
  forall a b res',
    In (SmbusWrite a b res') (concat segs) ->
    exists s,
      In s steps /\ rw_address s = a /\
      (rw_mask s = 0xFF /\ b = rw_value s \/
       rw_mask s <> 0xFF /\
       exists res,
         b = Z.lor (Z.land (rw_value s) (rw_mask s))
                   (Z.land res (uint8 (Z.lnot (rw_mask s))))).
Proof.
  induction 1 as [| s seg steps segs Hatt Hall IH]; intros a0 b0 res0 Hin.
  - destruct Hin.
  - cbn [concat] in *. apply in_app_or in Hin as [Hin | Hin].
    + destruct Hatt as [a v res | a v m res Hm Hres | a v m res res' Hm Hres];
        cbn in Hin.
      * destruct Hin as [[= <- <- <-] | []].
        exists (RegWrite a v 0xFF). cbn. split; [now left |]. auto.
      * destruct Hin as [[=] | []].
      * destruct Hin as [[=] | [[= <- <- <-] | []]].
        exists (RegWrite a v m). cbn. split; [now left |].
        split; [reflexivity |]. right. split; [exact Hm |]. now exists res.
    + destruct (IH a0 b0 res0 Hin) as (s' & Hs & Hrest).
      exists s'. split; [now right | exact Hrest].
Qed.

Lemma configure_bus_events r channel w :
  0 <= channel < 8 ->
  exists segs,
    Forall2 attempt (configure_steps r channel) segs /\
    bus_events (emitted (configure r channel) w) = concat segs.
Proof.
  intros Hc.
  destruct (configure_summary r channel w Hc)
    as (segs & seg & Hall & Hbus & _ & _ & _ & _ & Hem).
  exists segs. split; [exact Hall |].
  rewrite Hem, bus_events_app, Hbus.
  destruct (existsb is_bus_failure seg); cbn; apply app_nil_r.
Qed.

(** X16: the rate selection keeps the low nibble of register 0x2F: when the
    read of 0x2F succeeds in a configuration run, the run writes back the
    rate's code in the high nibble with the low nibble that was read. *)
Theorem configure_sets_line_rate r channel w res :
  0 <= channel < 8 ->
  In (SmbusRead 0x2F res) (emitted (configure r channel) w) ->
  0 <= res ->
  exists res',
    In (SmbusWrite 0x2F (Z.lor (Z.shiftl (rate_nibble r) 4) (Z.land res 0x0F)) res')
       (emitted (configure r channel) w).
Proof.
  intros Hc Hin Hok.
  destruct (configure_bus_events r channel w Hc) as (segs & Hall & Hbus).
  apply in_bus_events in Hin; [| reflexivity]. rewrite Hbus in Hin.
  destruct (attempts_reads _ _ Hall _ _ Hin Hok) as (s & res' & Hs & Ha & _ & Hw).
  exists res'. rewrite <- Hbus in Hw. apply List.filter_In in Hw as [Hw _].
  unfold configure_steps in Hs. cbn in Hs.
  repeat destruct Hs as [<- | Hs]; try discriminate Ha; try contradiction.
  cbn [rw_value rw_mask] in Hw. now destruct r.
Qed.

(** X17: the byte written to the channel select register names the lane:
    every write to 0xFC in a configuration run carries the one-hot byte of
    the run's channel, so runs for different channels never write the same
    byte there. *)
Theorem select_byte_names_channel r1 c1 w1 r2 c2 w2 b res1 res2 :
  0 <= c1 < 8 -> 0 <= c2 < 8 ->
  In (SmbusWrite 0xFC b res1) (emitted (configure r1 c1) w1) ->
  In (SmbusWrite 0xFC b res2) (emitted (configure r2 c2) w2) ->
  b = 2 ^ c1 /\ c1 = c2.
Proof.
  assert (Hbyte : forall r c w res, 0 <= c < 8 ->
            In (SmbusWrite 0xFC b res) (emitted (configure r c) w) -> b = 2 ^ c).
  { intros r c w res Hc Hin.
    destruct (configure_bus_events r c w Hc) as (segs & Hall & Hbus).
    apply in_bus_events in Hin; [| reflexivity]. rewrite Hbus in Hin.
    destruct (attempts_writes _ _ Hall _ _ _ Hin) as (s & Hs & Ha & Hval).
    unfold configure_steps in Hs. cbn in Hs.
    repeat destruct Hs as [<- | Hs]; try discriminate Ha; try contradiction.
    cbn in Hval. destruct Hval as [[_ ->] | [Habs _]]; [| now destruct Habs].
    apply Z.shiftl_1_l. }
  intros Hc1 Hc2 Hin1 Hin2.
  pose proof (Hbyte _ _ _ _ Hc1 Hin1) as Hb1.
  pose proof (Hbyte _ _ _ _ Hc2 Hin2) as Hb2.
  split; [exact Hb1 |]. rewrite Hb1 in Hb2.
  apply (Z.pow_inj_r 2); lia.
Qed.

End WrittenBytes.

Lemma configure_sets_line_rate_witness :
  exists res',
    In (SmbusWrite 0x2F (Z.lor (Z.shiftl (rate_nibble Rate25G) 4) (Z.land 0x3A 0x0F)) res')
       (emitted (configure Rate25G 2) (boot (healthy [(0x2F, 0x3A)]))).
Proof.
  apply (configure_sets_line_rate Rate25G 2 (boot (healthy [(0x2F, 0x3A)])) 0x3A).
  - lia.
  - vm_compute. auto 20.
  - lia.
Defined.

Lemma select_byte_names_channel_witness : 0x08 = 2 ^ 3 /\ 3 = 3.
Proof.
  apply (select_byte_names_channel
           Rate10G 3 (boot (healthy ds250df810_regs))
           Rate25G 3 (boot (healthy ds250df810_regs)) 0x08 0 0).
  - lia.
  - lia.
  - vm_compute. auto 20.
  - vm_compute. auto 20.
Defined.
